(** * fzf-autocd: the directory-inheritance handoff of [fzf --autocd]

    A shallow embedding of the Go sources of the repository:

    - [main.go] (package main): [exit], [main], [handleAutoCD], [isDirectory];
    - [src/winpty.go] (package fzf, non-Windows build): [needWinpty], [runWinpty];
    - the stand-alone reproduction program that calls [autocd.ExitWithDirectory];

    together with the pieces of the Go standard library they call
    ([path/filepath], [strings], [os]) and a model of the [autocd-go] handoff
    library that [main.go] imports. *)

From Stdlib Require Import String Ascii List Bool ZArith Lia.
Import ListNotations.

Local Open Scope string_scope.
Local Open Scope list_scope.

(** ** Go standard library: [strings] *)

Module strings.

(** [strings.HasPrefix]. *)
Definition HasPrefix (s pre : string) : bool := String.prefix pre s.

(** White space as [unicode.IsSpace] defines it, on the UTF-8 bytes of a Go
    string: tab, newline, vertical tab, form feed, carriage return and
    space in one byte; U+0085 and U+00A0 in two; U+1680, U+2000 to U+200A,
    U+2028, U+2029, U+202F, U+205F and U+3000 in three. *)
Definition isSpace1 (a : ascii) : bool :=
  let x := nat_of_ascii a in
  ((9 <=? x) && (x <=? 13))%nat || (x =? 32)%nat.

Definition isSpace2 (a b : ascii) : bool :=
  let x := nat_of_ascii a in
  let y := nat_of_ascii b in
  ((x =? 194) && ((y =? 133) || (y =? 160)))%nat.

Definition isSpace3 (a b c : ascii) : bool :=
  let x := nat_of_ascii a in
  let y := nat_of_ascii b in
  let z := nat_of_ascii c in
  ((x =? 225) && (y =? 154) && (z =? 128)
   || (x =? 226) && (y =? 128)
      && ((128 <=? z) && (z <=? 138) || (z =? 168) || (z =? 169)
          || (z =? 175))
   || (x =? 226) && (y =? 129) && (z =? 159)
   || (x =? 227) && (y =? 128) && (z =? 128))%nat.

(** Leading white space removed, rune by rune. *)
Fixpoint TrimLeft (s : string) : string :=
  match s with
  | String a s1 =>
      if isSpace1 a then TrimLeft s1
      else match s1 with
           | String b s2 =>
               if isSpace2 a b then TrimLeft s2
               else match s2 with
                    | String c s3 => if isSpace3 a b c then TrimLeft s3 else s
                    | EmptyString => s
                    end
           | EmptyString => s
           end
  | EmptyString => EmptyString
  end.

Fixpoint reverseOnto (s acc : string) : string :=
  match s with
  | String c rest => reverseOnto rest (String c acc)
  | EmptyString => acc
  end.

(** The same on a string whose bytes are in reverse order. *)
Fixpoint trimReversed (r : string) : string :=
  match r with
  | String c r1 =>
      if isSpace1 c then trimReversed r1
      else match r1 with
           | String b r2 =>
               if isSpace2 b c then trimReversed r2
               else match r2 with
                    | String a r3 =>
                        if isSpace3 a b c then trimReversed r3 else r
                    | EmptyString => r
                    end
           | EmptyString => r
           end
  | EmptyString => EmptyString
  end.

(** Trailing white space removed. *)
Definition TrimRight (s : string) : string :=
  reverseOnto (trimReversed (reverseOnto s EmptyString)) EmptyString.

(** [strings.TrimSpace]. *)
Definition TrimSpace (s : string) : string := TrimRight (TrimLeft s).

(** [strings.Join]. *)
Fixpoint Join (elems : list string) (sep : string) : string :=
  match elems with
  | [] => ""
  | [e] => e
  | e :: rest => e ++ sep ++ Join rest sep
  end.

End strings.

(** ** Go standard library: [path/filepath], Unix flavour

    On the non-Windows build the volume name is always empty and the only
    separator is ['/']. *)

Module filepath.

Definition Separator : ascii := "/"%char.

Definition IsPathSeparator (c : ascii) : bool := Ascii.eqb c Separator.

(** [filepath.IsAbs]: the path starts with a separator. *)
Definition IsAbs (path : string) : bool :=
  match path with
  | String c _ => IsPathSeparator c
  | EmptyString => false
  end.

(** The elements of a path between its separators: ["a//b"] gives
    [["a"; ""; "b"]]. *)
Fixpoint elements (path : string) : list string :=
  match path with
  | EmptyString => [EmptyString]
  | String c rest =>
      if IsPathSeparator c then EmptyString :: elements rest
      else match elements rest with
           | e :: es => String c e :: es
           | [] => [String c EmptyString]
           end
  end.

(** One iteration of the loop of [Clean], on the element [e]; [out] holds the
    elements written so far, last one first.  An empty element and ["."] are
    skipped; [".."] removes the last written element when there is one to
    remove, is kept at the front of a path that is not rooted, and is dropped
    at the root. *)
Definition cleanStep (rooted : bool) (out : list string) (e : string)
  : list string :=
  if (e =? "") || (e =? ".") then out
  else if e =? ".." then
    match out with
    | top :: below => if top =? ".." then e :: out else below
    | [] => if rooted then [] else [e]
    end
  else e :: out.

(** [filepath.Clean]. *)
Definition Clean (path : string) : string :=
  match path with
  | EmptyString => "."
  | String c _ =>
      let rooted := IsPathSeparator c in
      let out := fold_left (cleanStep rooted) (elements path) [] in
      let body := strings.Join (rev out) "/" in
      if rooted then String Separator body
      else if body =? "" then "." else body
  end.

Fixpoint hasSeparator (path : string) : bool :=
  match path with
  | String c rest => IsPathSeparator c || hasSeparator rest
  | EmptyString => false
  end.

(** [path[:i+1]] for [i] the index of the last separator of [path] (and [-1]
    when it has none): what the loop of [Dir] leaves. *)
Fixpoint uptoLastSeparator (path : string) : string :=
  match path with
  | String c rest =>
      if hasSeparator path then String c (uptoLastSeparator rest)
      else EmptyString
  | EmptyString => EmptyString
  end.

(** A name of one directory entry: not empty, not ["."] or [".."], and
    without separator. *)
Definition plain (name : string) : bool :=
  negb (name =? "") && negb (name =? ".") && negb (name =? "..")
  && negb (hasSeparator name).

(** The absolute path whose elements are [names], in order. *)
Definition rooted (names : list string) : string :=
  String Separator (strings.Join names "/").

(** [filepath.Dir]: all but the last element of the path, cleaned. *)
Definition Dir (path : string) : string := Clean (uptoLastSeparator path).

(** [filepath.Base]: the last element of the path, trailing separators
    removed. *)
Definition Base (path : string) : string :=
  match path with
  | EmptyString => "."
  | _ =>
      match filter (fun e => negb (e =? "")) (rev (elements path)) with
      | e :: _ => e
      | [] => String Separator EmptyString
      end
  end.

(** [filepath.Join] of two elements. *)
Definition Join (a b : string) : string :=
  if a =? "" then (if b =? "" then "" else Clean b)
  else if b =? "" then Clean a
  else Clean (a ++ String Separator b).

(** [filepath.Abs], with the answer [wd] of [os.Getwd]; it fails when the
    path is relative and the working directory is not known. *)
Definition Abs (wd : option string) (path : string) : option string :=
  if IsAbs path then Some (Clean path)
  else match wd with
       | Some d => Some (Join d path)
       | None => None
       end.

End filepath.

(** ** The operating system as the program sees it *)

Module os.

Inductive FileKind := Directory | Regular | Other.

(** What [os.Stat] reports about an entry.  [Stat] follows symbolic links:
    [linkTarget] is the real location when the path went through one. *)
Record FileInfo := {
  kind : FileKind;
  readable : bool;
  executable : bool;
  linkTarget : option string
}.

(** [FileInfo.IsDir]. *)
Definition IsDir (info : FileInfo) : bool :=
  match kind info with Directory => true | _ => false end.

(** How the platform can hand the terminal to another program: by replacing
    the process image in place ([syscall.Exec]), by spawning a child and
    waiting for it, or not at all. *)
Inductive Platform := InPlace | SpawnWait | NoHandoff.

(** Modelled from the spec: the statements of the script that the missing
    ScriptGenerator of autocd-go writes. *)
Inductive Stmt :=
| Cd (dir : string)
| Echo (line : string)
| ExecShell (shell : string)
| CallShell (shell : string)
| RemoveSelf.

(** The environment of one run of the process, as the operating system
    answers; nothing in it changes during the run except the temporary
    files, which are threaded separately.

    - [cwd]: the answer of [os.Getwd], [None] when it fails;
    - [stat]: the answer of [os.Stat] for a path, [None] when it fails;
    - [getenv]: the environment variables;
    - [platform]: how the terminal can be handed over;
    - [defaultShell]: the default-shell query of the platform without
      process replacement;
    - [home], [startDir]: the home directory of the user and the working
      directory at the start of the process;
    - [interpreter]: the program that runs scripts;
    - [tempFile]: the name the temporary-file facility hands out, with
      whether it can be written, lies in a world-writable directory, and
      lies in a private per-user subdirectory;
    - [execErrno]: the error the replacement or spawn primitive reports;
    - [childExit]: the exit code of the spawned interpreter;
    - [ttyDevice]: the terminal device [tui.TtyIn] opens, [None] when it
      cannot. *)
Record World := {
  cwd : option string;
  stat : string -> option FileInfo;
  getenv : string -> option string;
  platform : Platform;
  defaultShell : option string;
  home : string;
  startDir : string;
  interpreter : string;
  tempFile : string;
  tempWritable : bool;
  tempWorldWritable : bool;
  tempPrivate : bool;
  execErrno : option Z;
  childExit : Z;
  ttyDevice : option string
}.

(** What a run does that can be seen from outside, in order. *)
Inductive Event :=
| Stdout (text : string)
| Stderr (text : string)
| Debug (stage : string) (decision : string)
| SetStdin (tty : string)
| WriteFile (path : string) (contents : list Stmt)
| Remove (path : string)
| Exec (image script : string)
| Spawn (image script : string)
| Chdir (dir : string)
| Shell (image dir : string)
| FallbackCalled.

(** How a process stops running its own code: [os.Exit], or its image is
    replaced by another program. *)
Inductive Termination :=
| Exited (code : Z)
| Replaced.

Inductive Step (A : Type) :=
| Ret (a : A)
| Halt (t : Termination).
Arguments Ret {A} a.
Arguments Halt {A} t.

Record Run (A : Type) := mkRun {
  res : Step A;
  out : list Event;
  disk : list string
}.
Arguments mkRun {A}.
Arguments res {A}.
Arguments out {A}.
Arguments disk {A}.

(** A computation starts with the temporary files on disk and gives its
    result (or the way the process ended), the events and the files left. *)
Definition M (A : Type) : Type := list string -> Run A.

Definition ret {A} (a : A) : M A := fun d => mkRun (Ret a) [] d.

Definition bind {A B} (m : M A) (f : A -> M B) : M B :=
  fun d =>
    let r := m d in
    match res r with
    | Ret a => let r' := f a (disk r) in
               mkRun (res r') (out r ++ out r') (disk r')
    | Halt t => mkRun (Halt t) (out r) (disk r)
    end.

Definition emit (e : Event) : M unit := fun d => mkRun (Ret tt) [e] d.

(** [os.Exit]: the process ends at once, deferred calls do not run. *)
Definition Exit {A} (code : Z) : M A := fun d => mkRun (Halt (Exited code)) [] d.

(** The image of the process is replaced: nothing of the program runs after
    this. *)
Definition Become {A} : M A := fun d => mkRun (Halt Replaced) [] d.

(** [os.Getwd]. *)
Definition Getwd (w : World) : option string := cwd w.

(** [os.Remove]; removing a file that is not there is an error the callers
    ignore. *)
Definition RemoveFile (path : string) : M unit :=
  fun d => mkRun (Ret tt) [Remove path]
                 (filter (fun f => negb (f =? path)) d).

(** Writing a script file, which replaces a file of the same name. *)
Definition WriteScript (path : string) (contents : list Stmt) : M unit :=
  fun d => mkRun (Ret tt) [WriteFile path contents]
                 (path :: filter (fun f => negb (f =? path)) d).

(** The newline character. *)
Definition LF : string := String "010"%char EmptyString.

(** [fmt.Print] and [fmt.Println] on standard output, [fmt.Fprintf] and
    [fmt.Fprintln] on standard error. *)
Definition Print (s : string) : M unit := emit (Stdout s).
Definition Println (s : string) : M unit := emit (Stdout (s ++ LF)).
Definition Eprint (s : string) : M unit := emit (Stderr s).
Definition Eprintln (s : string) : M unit := emit (Stderr (s ++ LF)).

(** A run-time panic of the Go runtime: a message on standard error and exit
    code 2. *)
Definition Panic {A} (msg : string) : M A :=
  fun d => mkRun (Halt (Exited 2)) [Stderr ("panic: " ++ msg ++ LF)] d.

(** The bytes a run wrote to standard error; a debug line is its text and a
    newline. *)
Fixpoint stderrBytes (evs : list Event) : nat :=
  match evs with
  | Stderr s :: rest => String.length s + stderrBytes rest
  | Debug st d :: rest =>
      S (String.length st + String.length d) + stderrBytes rest
  | _ :: rest => stderrBytes rest
  | [] => 0
  end.

Definition isDebug (e : Event) : bool :=
  match e with Debug _ _ => true | _ => false end.

Definition isFallbackCalled (e : Event) : bool :=
  match e with FallbackCalled => true | _ => false end.

Definition isWriteFile (e : Event) : bool :=
  match e with WriteFile _ _ => true | _ => false end.

(** The texts written to standard output, in order. *)
Fixpoint stdoutOf (evs : list Event) : list string :=
  match evs with
  | Stdout s :: rest => s :: stdoutOf rest
  | _ :: rest => stdoutOf rest
  | [] => []
  end.

(** Nothing but writes to standard error. *)
Definition onlyStderr (evs : list Event) : Prop :=
  forall e, In e evs -> exists text, e = Stderr text.

(** What happened before the first interactive shell took the terminal. *)
Fixpoint beforeShell (evs : list Event) : list Event :=
  match evs with
  | [] => []
  | Shell _ _ :: _ => []
  | e :: rest => e :: beforeShell rest
  end.

(** How many times the fallback procedure was entered. *)
Definition fallbackCalls (evs : list Event) : nat :=
  length (filter isFallbackCalled evs).

(** The events of a run without its debug lines. *)
Definition withoutDebug (evs : list Event) : list Event :=
  filter (fun e => negb (isDebug e)) evs.

(** The exit status the parent of the process sees when the computation is
    the whole program: a [main] that returns exits with 0. *)
Definition exitStatus {A} (r : Run A) : option Z :=
  match res r with
  | Ret _ => Some 0%Z
  | Halt (Exited c) => Some c
  | Halt Replaced => None
  end.

End os.

Declare Scope proc_scope.
Delimit Scope proc_scope with proc.
Notation "x <- m ;; k" := (os.bind m (fun x => k))
  (at level 61, m at next level, right associativity) : proc_scope.
Notation "m ;; k" := (os.bind m (fun _ => k))
  (at level 61, right associativity) : proc_scope.
Local Open Scope proc_scope.

(** Go's [error] values, as [errors.New] makes them; [nil] is [None]. *)
Inductive error := errors_New (text : string).

Definition Error (e : error) : string :=
  match e with errors_New text => text end.

(** ** Package [fzf]: what the sources under study use of it *)

Module fzf.

(** The exit codes of [constants.go]. *)
Definition ExitOk : Z := 0.
Definition ExitNoMatch : Z := 1.
Definition ExitError : Z := 2.
Definition ExitBecome : Z := 126.
Definition ExitInterrupt : Z := 130.

(** The fields of [Options] that [main.go] reads. *)
Record Options := {
  Bash : bool;
  Zsh : bool;
  Fish : bool;
  Help : bool;
  Version : bool;
  Man : bool;
  AutoCD : bool
}.

(** [winpty.go], built when the target is not Windows.  The [*Options]
    argument may be [nil]. *)
Definition needWinpty (_ : option Options) : bool := false.

Definition runWinpty (_ : list string) (_ : option Options)
  : Z * string * option error :=
  (ExitError, "", Some (errors_New "Not supported")).

End fzf.

(** ** The handoff library [autocd-go]

    The sources call [autocd.ExitWithDirectory] and
    [autocd.ExitWithDirectoryOrFallback]; the library itself is not among the
    sources, so its pipeline is written here from its specification. *)

Module autocd.
Import os.

(** Modelled from the spec: the strictness levels of the missing
    SecurityPolicy component of autocd-go. *)
Inductive SecurityLevel := Permissive | Normal | Strict.

(** Modelled from the spec: the shell kinds of the missing ShellDetector
    component of autocd-go. *)
Inductive ShellKind := Bash | Zsh | Fish | Posix | Cmd | PowerShell | Unknown.

(** Modelled from the spec: the script dialects of the missing
    ScriptGenerator, the syntax family a generated script conforms to. *)
Inductive Dialect := PosixScript | CommandScript.

(** Modelled from the spec: the dialect that matches a shell kind in the
    missing ShellDetector; the command interpreters take the non-POSIX
    dialect, every other kind the POSIX one. *)
Definition dialectOf (k : ShellKind) : Dialect :=
  match k with
  | Cmd | PowerShell => CommandScript
  | _ => PosixScript
  end.

(** Modelled from the spec: ShellDescriptor of the missing data model of
    autocd-go. *)
Record ShellDescriptor := {
  kind : ShellKind;
  executablePath : string;
  scriptDialect : Dialect
}.

(** Modelled from the spec: TargetSpec of the missing data model. *)
Record TargetSpec := {
  rawPath : string;
  resolvedDir : string;
  exists_ : bool
}.

(** Modelled from the spec: the owner of the cleanup of an artifact in the
    missing data model, always the controller. *)
Inductive Owner := HandoffController.

(** Modelled from the spec: ScriptArtifact of the missing data model. *)
Record ScriptArtifact := {
  filePath : string;
  permissions : N;
  contents : list Stmt;
  cleanupOwner : Owner
}.

(** Modelled from the spec: HandoffOptions of the missing data model. *)
Record HandoffOptions := {
  securityLevel : SecurityLevel;
  debug : bool;
  shellOverride : option ShellDescriptor;
  fallback : option (M unit)
}.

(** Modelled from the spec: HandoffError of the missing data model, each
    error with the path, shell or OS error code it is about. *)
Inductive HandoffError :=
| InvalidTarget (path : string)
| ShellDetectionFailed (shell : string)
| ScriptGenerationFailed (path : string)
| PermissionDenied (path : string)
| ExecFailed (errno : Z)
| UnsupportedPlatform.

(** Modelled from the spec: the text of an error of the missing library, as
    its [Error] method would give it for diagnostics. *)
Definition describe (e : HandoffError) : string :=
  match e with
  | InvalidTarget p => "invalid target: " ++ p
  | ShellDetectionFailed s => "shell detection failed: " ++ s
  | ScriptGenerationFailed p => "script generation failed: " ++ p
  | PermissionDenied p => "permission denied: " ++ p
  | ExecFailed _ => "exec failed"
  | UnsupportedPlatform => "unsupported platform"
  end.

(** Modelled from the spec: the missing PathResolver of autocd-go (4.1).  An
    empty path and a path that does not exist fail with InvalidTarget; a
    directory resolves to itself and any other entry to its parent, after
    conversion to an absolute path against the live working directory. *)
Definition resolve (w : World) (raw : string) : HandoffError + TargetSpec :=
  if raw =? "" then inl (InvalidTarget raw)
  else match filepath.Abs (Getwd w) raw with
       | None => inl (InvalidTarget raw)
       | Some abs =>
           match stat w abs with
           | None => inl (InvalidTarget raw)
           | Some info =>
               inr {| rawPath := raw;
                      resolvedDir := if IsDir info then abs
                                     else filepath.Dir abs;
                      exists_ := true |}
           end
       end.

(** Modelled from the spec: the check of the missing SecurityPolicy that
    the directory exists. *)
Definition dirExists (w : World) (d : string) : bool :=
  match stat w d with
  | Some info => IsDir info
  | None => false
  end.

(** Modelled from the spec: the check of the missing SecurityPolicy that
    the user can both read and enter the directory. *)
Definition canEnter (w : World) (d : string) : bool :=
  match stat w d with
  | Some info => readable info && executable info
  | None => false
  end.

(** Modelled from the spec: a path lies under an allowed root of the
    missing SecurityPolicy. *)
Definition underRoot (root d : string) : bool :=
  (d =? root) || String.prefix (root ++ "/") d || (root =? "/").

(** Modelled from the spec: the Strict check of the missing SecurityPolicy
    on a directory reached through a symbolic link, whose target must lie
    under the home directory or the original working directory. *)
Definition linkAllowed (w : World) (d : string) : bool :=
  match stat w d with
  | Some info =>
      match linkTarget info with
      | Some real => existsb (fun r => underRoot r real) [home w; startDir w]
      | None => true
      end
  | None => true
  end.

(** Modelled from the spec: the Strict check of the missing SecurityPolicy
    on the place of the script, which must not be world-writable unless it
    is a private per-user subdirectory. *)
Definition placementAllowed (w : World) : bool :=
  negb (tempWorldWritable w) || tempPrivate w.

(** Modelled from the spec: the missing SecurityPolicy of autocd-go (4.2).
    Every level checks that the directory exists; Normal adds that the user
    can read and enter it; Strict adds the symbolic-link roots and the
    placement of the script.  A failure is PermissionDenied with the
    offending path. *)
Definition validate (w : World) (spec : TargetSpec) (level : SecurityLevel)
  : HandoffError + unit :=
  let d := resolvedDir spec in
  if negb (dirExists w d) then inl (PermissionDenied d)
  else match level with
       | Permissive => inr tt
       | Normal =>
           if canEnter w d then inr tt else inl (PermissionDenied d)
       | Strict =>
           if negb (canEnter w d) then inl (PermissionDenied d)
           else if negb (linkAllowed w d) then inl (PermissionDenied d)
           else if negb (placementAllowed w)
                then inl (PermissionDenied (tempFile w))
                else inr tt
       end.

(** Modelled from the spec: the check of the missing ShellDetector that an
    executable exists and is executable. *)
Definition isExecutableFile (w : World) (p : string) : bool :=
  match stat w p with
  | Some info =>
      match os.kind info with
      | Regular => executable info
      | _ => false
      end
  | None => false
  end.

(** Modelled from the spec: the kind the missing ShellDetector gives to an
    executable name; names it does not recognise are Posix. *)
Definition kindOfName (name : string) : ShellKind :=
  if name =? "bash" then Bash
  else if name =? "zsh" then Zsh
  else if name =? "fish" then Fish
  else if (name =? "cmd") || (name =? "cmd.exe") then Cmd
  else if (name =? "powershell") || (name =? "powershell.exe")
          || (name =? "pwsh") || (name =? "pwsh.exe") then PowerShell
  else Posix.

(** Modelled from the spec: the descriptor the missing ShellDetector
    produces for a kind and an executable. *)
Definition describeShell (k : ShellKind) (path : string) : ShellDescriptor :=
  {| kind := k; executablePath := path; scriptDialect := dialectOf k |}.

(** Modelled from the spec: the shell the user has configured, which the
    missing ShellDetector reads from an environment variable on POSIX and
    from the default-shell query on the platform without process
    replacement. *)
Definition configuredShell (w : World) : option string :=
  match platform w with
  | SpawnWait => defaultShell w
  | _ => getenv w "SHELL"
  end.

(** Modelled from the spec: the missing ShellDetector of autocd-go (4.3).  An
    override is checked and returned as it is; otherwise the configured
    shell is mapped to a kind by its executable name, unrecognised names to
    Posix; an executable that cannot be found is ShellDetectionFailed. *)
Definition detect (w : World) (override : option ShellDescriptor)
  : HandoffError + ShellDescriptor :=
  match override with
  | Some sh =>
      if isExecutableFile w (executablePath sh) then inr sh
      else inl (ShellDetectionFailed (executablePath sh))
  | None =>
      match configuredShell w with
      | Some path =>
          if isExecutableFile w path
          then inr (describeShell (kindOfName (filepath.Base path)) path)
          else inl (ShellDetectionFailed path)
      | None => inl (ShellDetectionFailed "")
      end
  end.

(** Modelled from the spec: the confirmation line of the script of the
    missing ScriptGenerator. *)
Definition confirmation (dir : string) : string :=
  "Directory changed to: " ++ dir.

(** Modelled from the spec: the script of the missing ScriptGenerator of
    autocd-go (4.4): change directory, confirm on standard output, then hand
    over to the shell, by exec in the POSIX dialect and by a direct call
    followed by the script deleting itself in the other one. *)
Definition scriptFor (dir : string) (sh : ShellDescriptor) : list Stmt :=
  match scriptDialect sh with
  | PosixScript =>
      [Cd dir; Echo (confirmation dir); ExecShell (executablePath sh)]
  | CommandScript =>
      [Cd dir; Echo (confirmation dir); CallShell (executablePath sh);
       RemoveSelf]
  end.

(** Modelled from the spec: the permissions of the artifact of the missing
    ScriptGenerator, owner-only read and execute (octal 0500). *)
Definition ownerExecuteOnly : N := 320.

(** Modelled from the spec: the missing ScriptGenerator of autocd-go (4.4);
    the artifact is written to the private temporary location, and any write
    failure is ScriptGenerationFailed. *)
Definition generate (w : World) (spec : TargetSpec) (sh : ShellDescriptor)
  : M (HandoffError + ScriptArtifact) :=
  let body := scriptFor (resolvedDir spec) sh in
  if tempWritable w then
    WriteScript (tempFile w) body ;;
    ret (inr {| filePath := tempFile w;
                permissions := ownerExecuteOnly;
                contents := body;
                cleanupOwner := HandoffController |})
  else ret (inl (ScriptGenerationFailed (tempFile w))).

(** Modelled from the spec: what the interpreter does with a script of the
    missing ScriptGenerator, [self], started in [dir]: the statements in
    order, the script ending where it execs the shell. *)
Fixpoint runScript (self dir : string) (stmts : list Stmt) : M unit :=
  match stmts with
  | [] => ret tt
  | Cd d :: rest => emit (Chdir d) ;; runScript self d rest
  | Echo line :: rest => Println line ;; runScript self dir rest
  | ExecShell sh :: _ => emit (Shell sh dir)
  | CallShell sh :: rest => emit (Shell sh dir) ;; runScript self dir rest
  | RemoveSelf :: rest => RemoveFile self ;; runScript self dir rest
  end.

(** Modelled from the spec: the directory in which the interpreter of the
    missing PlatformExecutor starts, the working directory of the host. *)
Definition startDirOf (w : World) : string :=
  match Getwd w with Some d => d | None => "" end.

(** Modelled from the spec: the missing PlatformExecutor of autocd-go (4.5).
    With in-place replacement the interpreter becomes the process image and
    runs the script; without it the interpreter is spawned, waited for, and
    the host exits with the child's code.  The call returns only when the
    primitive reports an error or the platform has no handoff at all. *)
Definition execute (w : World) (art : ScriptArtifact) : M HandoffError :=
  match platform w with
  | NoHandoff => ret UnsupportedPlatform
  | InPlace =>
      match execErrno w with
      | Some n => ret (ExecFailed n)
      | None =>
          emit (Exec (interpreter w) (filePath art)) ;;
          runScript (filePath art) (startDirOf w) (contents art) ;;
          Become
      end
  | SpawnWait =>
      match execErrno w with
      | Some n => ret (ExecFailed n)
      | None =>
          emit (Spawn (interpreter w) (filePath art)) ;;
          runScript (filePath art) (startDirOf w) (contents art) ;;
          Exit (childExit w)
      end
  end.

(** Modelled from the spec: a debug line of the missing HandoffController,
    written only when the flag captured at the start of the pipeline is
    set. *)
Definition tracing (dbg : bool) (stage decision : string) : M unit :=
  if dbg then emit (Debug stage decision) else ret tt.

(** Modelled from the spec: the missing HandoffController of autocd-go (4.6),
    entry point [invoke]: the stages in order, each with its debug line; the
    first failure is returned, and after a failed execution the artifact is
    deleted before the error is returned. *)
Definition invoke (w : World) (path : string) (opts : HandoffOptions)
  : M HandoffError :=
  let dbg := debug opts in
  match resolve w path with
  | inl e => tracing dbg "resolve" (describe e) ;; ret e
  | inr spec =>
      tracing dbg "resolve" (resolvedDir spec) ;;
      match validate w spec (securityLevel opts) with
      | inl e => tracing dbg "security" (describe e) ;; ret e
      | inr _ =>
          tracing dbg "security" "accepted" ;;
          match detect w (shellOverride opts) with
          | inl e => tracing dbg "shell" (describe e) ;; ret e
          | inr sh =>
              tracing dbg "shell" (executablePath sh) ;;
              g <- generate w spec sh ;;
              match g with
              | inl e => tracing dbg "script" (describe e) ;; ret e
              | inr art =>
                  tracing dbg "script" (filePath art) ;;
                  tracing dbg "execute" (interpreter w) ;;
                  e <- execute w art ;;
                  RemoveFile (filePath art) ;;
                  ret e
              end
          end
      end
  end.

(** Modelled from the spec: entry point [invokeAdvanced] of the missing
    HandoffController, the same pipeline with the options given in full. *)
Definition invokeAdvanced (w : World) (path : string) (opts : HandoffOptions)
  : M HandoffError := invoke w path opts.

(** Modelled from the spec: entry point [invokeOrFallback] of the missing
    HandoffController: when a stage fails the fallback is called and the
    process then ends with the neutral code 0. *)
Definition invokeOrFallback (w : World) (path : string)
  (opts : HandoffOptions) (fb : M unit) : M unit :=
  _ <- invoke w path opts ;;
  emit FallbackCalled ;;
  fb ;;
  Exit 0.

(** Modelled from the spec: the default options of the missing library;
    Normal security, and debug read from the environment toggle
    [AUTOCD_DEBUG=1], any other value leaving it off. *)
Definition defaultOptions (w : World) : HandoffOptions :=
  {| securityLevel := Normal;
     debug := match getenv w "AUTOCD_DEBUG" with
              | Some v => v =? "1"
              | None => false
              end;
     shellOverride := None;
     fallback := None |}.

(** Modelled from the spec: the Go entry point of the missing library for
    [invoke] with the default options, as the sources call it; the Go
    [error] it returns is never [nil]. *)
Definition ExitWithDirectory (w : World) (targetPath : string)
  : M (option HandoffError) :=
  e <- invoke w targetPath (defaultOptions w) ;; ret (Some e).

(** Modelled from the spec: the Go entry point of the missing library for
    [invokeAdvanced]. *)
Definition ExitWithDirectoryAdvanced (w : World) (targetPath : string)
  (opts : HandoffOptions) : M (option HandoffError) :=
  e <- invokeAdvanced w targetPath opts ;; ret (Some e).

(** Modelled from the spec: the Go entry point of the missing library for
    [invokeOrFallback], with the default options. *)
Definition ExitWithDirectoryOrFallback (w : World) (targetPath : string)
  (fb : M unit) : M unit :=
  invokeOrFallback w targetPath (defaultOptions w) fb.

(** Modelled from the spec: a stage of the missing pipeline failed on
    [path], with the error [e]. *)
Definition stageFailed (w : World) (path : string) (opts : HandoffOptions)
  (e : HandoffError) : Prop :=
  resolve w path = inl e
  \/ (exists spec, resolve w path = inr spec
                   /\ validate w spec (securityLevel opts) = inl e)
  \/ detect w (shellOverride opts) = inl e
  \/ (tempWritable w = false /\ e = ScriptGenerationFailed (tempFile w))
  \/ (exists n, execErrno w = Some n /\ e = ExecFailed n)
  \/ (platform w = NoHandoff /\ e = UnsupportedPlatform).

(** Modelled from the spec: the options of the missing library with the
    debug flag set to [b] and nothing else changed. *)
Definition withDebug (b : bool) (opts : HandoffOptions) : HandoffOptions :=
  {| securityLevel := securityLevel opts;
     debug := b;
     shellOverride := shellOverride opts;
     fallback := fallback opts |}.

End autocd.

(** ** [main.go]: the [fzf] command with [--autocd] *)

Module fzfmain.
Import os.

Definition version : string := "0.64".
Definition revision : string := "devel".

Section Program.

(** The environment of the run. *)
Variable w : World.

(** The parts of the repository and of its dependencies that [main.go] calls
    and that are not among the sources: option parsing, the selector itself,
    the usage text, the temporary-file helper, the [man] command, the
    embedded shell scripts and manual page, and the handoff library. *)
Variable ParseOptions : bool -> list string -> fzf.Options * option error.
Variable Run : fzf.Options -> M (Z * string * option error).
Variable Usage : string.
Variable WriteTemporaryFile : list string -> string -> M string.
Variable runMan : string -> M (option error).
Variable Protect : M unit.
Variables bashKeyBindings bashCompletion zshKeyBindings zshCompletion
  fishKeyBindings manPage : string.
Variable ExitWithDirectoryOrFallback : string -> M unit -> M unit.

Definition printScript (label content : string) : M unit :=
  Println ("### " ++ label ++ " ###") ;;
  Println (strings.TrimSpace content) ;;
  Println ("### end: " ++ label ++ " ###").

Definition exit (code : Z) (err : option error) : M unit :=
  match err with
  | Some e => if (code =? fzf.ExitError)%Z then Eprintln (Error e) else ret tt
  | None => ret tt
  end ;;
  Exit code.

Definition isDirectory (path : string) : bool :=
  match stat w path with
  | Some info => IsDir info
  | None => false
  end.

(** The directory [handleAutoCD] computes for the selected item. *)
Definition targetDir (selectedItem : string) : string :=
  if isDirectory selectedItem then selectedItem
  else filepath.Dir selectedItem.

(** The fallback closure [handleAutoCD] passes to the library. *)
Definition failureMessage : string :=
  "fzf: autocd failed, falling back to normal exit" ++ LF.

Definition fallback : M unit :=
  Eprint failureMessage ;;
  Exit 0.

Definition handleAutoCD (selectedItem : string) : M unit :=
  match ttyDevice w with
  | Some ttyin => emit (SetStdin ttyin)
  | None => ret tt
  end ;;
  ExitWithDirectoryOrFallback (targetDir selectedItem) fallback.

(** The events of the terminal set-up at the start of [handleAutoCD]. *)
Definition ttyEvents : list Event :=
  match ttyDevice w with
  | Some ttyin => [SetStdin ttyin]
  | None => []
  end.

(** The test of [main] that guards the handoff. *)
Definition wantsAutoCD (code : Z) (options : fzf.Options)
  (selectedItem : string) : bool :=
  (code =? fzf.ExitOk)%Z && fzf.AutoCD options && negb (selectedItem =? "").

(** The end of [main], once [fzf.Run] has returned [code], [selectedItem]
    and [err]: the guarded handoff, then [exit]. *)
Definition finish (options : fzf.Options) (code : Z) (selectedItem : string)
  (err : option error) : M unit :=
  (if wantsAutoCD code options selectedItem
   then handleAutoCD selectedItem
   else ret tt) ;;
  exit code err.

(** [main]; [Args] is [os.Args]. *)
Definition main (Args : list string) : M unit :=
  Protect ;;
  match Args with
  | [] => Panic "runtime error: slice bounds out of range [1:0]"
  | _ :: arguments =>
  let (options, err) := ParseOptions true arguments in
  match err with
  | Some e => exit fzf.ExitError (Some e)
  | None =>
      if fzf.Bash options then
        printScript "key-bindings.bash" bashKeyBindings ;;
        printScript "completion.bash" bashCompletion
      else if fzf.Zsh options then
        printScript "key-bindings.zsh" zshKeyBindings ;;
        printScript "completion.zsh" zshCompletion
      else if fzf.Fish options then
        printScript "key-bindings.fish" fishKeyBindings ;;
        Println "fzf_key_bindings"
      else if fzf.Help options then Print Usage
      else if fzf.Version options then
        if (0 <? String.length revision)%nat
        then Print (version ++ " (" ++ revision ++ ")" ++ LF)
        else Println version
      else if fzf.Man options then
        file <- WriteTemporaryFile [manPage] LF ;;
        if (String.length file =? 0)%nat then Print manPage
        else
          failed <- runMan file ;;
          match failed with
          | Some _ => Print manPage
          | None => ret tt
          end ;;
          RemoveFile file
      else
        r <- Run options ;;
        let '(code, selectedItem, err) := r in
        finish options code selectedItem err
  end
  end.

End Program.

End fzfmain.

(** ** The stand-alone reproduction program for [ExitWithDirectory] *)

Module repro.
Import os.

Section Program.

Variable w : World.

(** The library call under test and the text of the errors it returns. *)
Variable E : Type.
Variable ExitWithDirectory : string -> M (option E).
Variable errorText : E -> string.

Definition getCurrentDir : string :=
  match Getwd w with
  | Some wd => wd
  | None => "unknown"
  end.

Definition bugLine : string :=
  "❌ BUG: Process was NOT replaced - this line should never be reached!"
  ++ LF.

(** [main]; [Args] is [os.Args]. *)
Definition main (Args : list string) : M unit :=
  if negb (length Args =? 2)%nat then
    match Args with
    | [] => Panic "runtime error: index out of range [0] with length 0"
    | prog :: _ =>
        Eprint ("Usage: " ++ prog ++ " <directory>" ++ LF) ;;
        Eprint ("Example: " ++ prog ++ " /tmp" ++ LF) ;;
        Exit 1
    end
  else
    let targetDir := nth 1 Args "" in
    Print ("Current directory: " ++ getCurrentDir ++ LF) ;;
    Print ("Target directory: " ++ targetDir ++ LF) ;;
    Print ("About to call ExitWithDirectory()..." ++ LF) ;;
    r <- ExitWithDirectory targetDir ;;
    match r with
    | Some err => Print ("Error: " ++ errorText err ++ LF) ;; Exit 1
    | None => ret tt
    end ;;
    Print bugLine ;;
    Print ("Still in directory: " ++ getCurrentDir ++ LF).

End Program.

End repro.

(** ** Concrete environments *)

Module Scenario.
Import os.

Definition dir : FileInfo :=
  {| os.kind := Directory; readable := true; executable := true;
     linkTarget := None |}.

Definition file : FileInfo :=
  {| os.kind := Regular; readable := true; executable := false;
     linkTarget := None |}.

Definition program : FileInfo :=
  {| os.kind := Regular; readable := true; executable := true;
     linkTarget := None |}.

Fixpoint lookup {A} (table : list (string * A)) (key : string) : option A :=
  match table with
  | (k, v) :: rest => if k =? key then Some v else lookup rest key
  | [] => None
  end.

(** A machine with [zsh] as the configured shell and a private temporary
    directory. *)
Definition machine (plat : Platform) (wd : string)
  (entries : list (string * FileInfo)) (env : list (string * string))
  (writable : bool) (errno : option Z) (code : Z) : World :=
  {| cwd := Some wd;
     stat := lookup entries;
     getenv := lookup env;
     platform := plat;
     defaultShell := Some "/bin/zsh";
     home := "/home/user";
     startDir := wd;
     interpreter := "/bin/sh";
     tempFile := "/tmp/autocd/handoff.sh";
     tempWritable := writable;
     tempWorldWritable := false;
     tempPrivate := true;
     execErrno := errno;
     childExit := code;
     ttyDevice := Some "/dev/tty" |}.

Definition projects : list (string * FileInfo) :=
  [("/bin/zsh", program);
   ("/home/user/projects", dir);
   ("/home/user/projects/readme.md", file);
   ("/tmp", dir)].

Definition zshEnv : list (string * string) := [("SHELL", "/bin/zsh")].

(** A POSIX machine where everything works, started in [/]. *)
Definition posix : World := machine InPlace "/" projects zshEnv true None 0.

(** The machine of the bug report: [fzf --autocd] started in [/], and a
    file selected by its relative path. *)
Definition notes : list (string * FileInfo) :=
  [("/bin/zsh", program);
   ("/Users/sam/Desktop/Notes", dir);
   ("Users/sam/Desktop/Notes/tasks.md", file)].

Definition report : World := machine InPlace "/" notes zshEnv true None 0.

(** Machines on which one stage of the pipeline fails: no shell configured,
    a temporary directory that cannot be written, a replacement primitive
    that reports an error; a machine without process replacement, whose
    child ends with code 3; a machine without any handoff; and the first
    machine with debug tracing on. *)
Definition noShell : World := machine InPlace "/" projects [] true None 0.
Definition readOnlyTemp : World :=
  machine InPlace "/" projects zshEnv false None 0.
Definition brokenExec : World :=
  machine InPlace "/" projects zshEnv true (Some 8%Z) 0.
Definition spawning : World :=
  machine SpawnWait "/" projects zshEnv true None 3.
Definition unsupported : World :=
  machine NoHandoff "/" projects zshEnv true None 0.
Definition tracing : World :=
  machine InPlace "/" projects (("AUTOCD_DEBUG", "1") :: zshEnv) true None 0.

(** A command line parser that knows [--autocd] and [--help], and a selector
    that returns a fixed result. *)
Definition parse (_ : bool) (args : list string) : fzf.Options * option error :=
  ({| fzf.Bash := false; fzf.Zsh := false; fzf.Fish := false;
      fzf.Help := existsb (String.eqb "--help") args;
      fzf.Version := false; fzf.Man := false;
      fzf.AutoCD := existsb (String.eqb "--autocd") args |}, None).

Definition selects (code : Z) (item : string) (_ : fzf.Options)
  : M (Z * string * option error) :=
  ret (code, item, None).

End Scenario.

(** ** More concrete environments: command lines, helpers and libraries *)

Module Cases.
Import os.

Definition isStdout (e : Event) : bool :=
  match e with Stdout _ => true | _ => false end.

Definition given (name : string) (args : list string) : bool :=
  existsb (String.eqb name) args.

(** A command line parser for the informational flags and [--autocd]; the
    option [--bogus] does not parse. *)
Definition parseFlags (_ : bool) (args : list string)
  : fzf.Options * option error :=
  ({| fzf.Bash := given "--bash" args; fzf.Zsh := given "--zsh" args;
      fzf.Fish := given "--fish" args; fzf.Help := given "--help" args;
      fzf.Version := given "--version" args; fzf.Man := given "--man" args;
      fzf.AutoCD := given "--autocd" args |},
   if given "--bogus" args
   then Some (errors_New "unknown option: --bogus")
   else None).

(** A temporary-file helper that writes the file [name], and one that
    cannot write any. *)
Definition writesTemp (name : string) (_ : list string) (_ : string)
  : M string :=
  fun d => mkRun (Ret name) [] (name :: d).

Definition noTemp (_ : list string) (_ : string) : M string := ret "".

(** A [man] command that shows the page, and one that fails. *)
Definition manWorks (_ : string) : M (option error) := ret None.

Definition manFails (_ : string) : M (option error) :=
  ret (Some (errors_New "exit status 1")).

(** A handoff library whose call returns to its caller, and libraries for
    the reproduction program that return [nil], return an error, and
    replace the process. *)
Definition returning (_ : string) (_ : M unit) : M unit := ret tt.

Definition returnsNil (_ : string) : M (option string) := ret None.

Definition returnsError (_ : string) : M (option string) :=
  ret (Some "no such directory").

Definition replaces (_ : string) : M (option string) := Become.

(** A string starts with a white space rune; [startsReversed] is the same
    test on a string whose bytes are in reverse order, and [endsWithSpace]
    says that a string ends with a white space rune. *)
Definition startsWithSpace (s : string) : bool :=
  match s with
  | String a s1 =>
      strings.isSpace1 a
      || match s1 with
         | String b s2 =>
             strings.isSpace2 a b
             || match s2 with
                | String c _ => strings.isSpace3 a b c
                | EmptyString => false
                end
         | EmptyString => false
         end
  | EmptyString => false
  end.

Definition startsReversed (r : string) : bool :=
  match r with
  | String c r1 =>
      strings.isSpace1 c
      || match r1 with
         | String b r2 =>
             strings.isSpace2 b c
             || match r2 with
                | String a _ => strings.isSpace3 a b c
                | EmptyString => false
                end
         | EmptyString => false
         end
  | EmptyString => false
  end.

Definition endsWithSpace (s : string) : bool :=
  startsReversed (strings.reverseOnto s EmptyString).

(** What [filepath.Clean] keeps of a relative path: elements that are not
    empty and do not start with a separator. *)
Definition kept (e : string) : Prop := e <> "" /\ filepath.IsAbs e = false.

End Cases.

Import os.

(** * Properties *)

(** ** Running computations *)

Lemma run_bind {A B} (m : M A) (f : A -> M B) (d : list string) :
  bind m f d =
  match res (m d) with
  | Ret a => mkRun (res (f a (disk (m d))))
                   (out (m d) ++ out (f a (disk (m d))))
                   (disk (f a (disk (m d))))
  | Halt t => mkRun (Halt t) (out (m d)) (disk (m d))
  end.
Proof. reflexivity. Qed.

Lemma run_bind_ret {A B} (m : M A) (f : A -> M B) d a :
  res (m d) = Ret a ->
  bind m f d = mkRun (res (f a (disk (m d))))
                     (out (m d) ++ out (f a (disk (m d))))
                     (disk (f a (disk (m d)))).
Proof. intros H. rewrite run_bind, H. reflexivity. Qed.

Lemma run_bind_halt {A B} (m : M A) (f : A -> M B) d t :
  res (m d) = Halt t ->
  bind m f d = mkRun (Halt t) (out (m d)) (disk (m d)).
Proof. intros H. rewrite run_bind, H. reflexivity. Qed.

(** The laws of the monad, run by run. *)
Lemma bind_ret_left {A B} (a : A) (f : A -> M B) (d : list string) :
  bind (ret a) f d = f a d.
Proof. unfold bind, ret. cbn. now destruct (f a d). Qed.

Lemma bind_ret_right {A} (m : M A) (d : list string) :
  bind m ret d = m d.
Proof.
  unfold bind, ret. destruct (m d) as [[a|t] o k]; cbn;
    rewrite ?app_nil_r; reflexivity.
Qed.

Lemma bind_assoc {A B C} (m : M A) (f : A -> M B) (g : B -> M C) d :
  bind (bind m f) g d = bind m (fun a => bind (f a) g) d.
Proof.
  unfold bind. destruct (m d) as [[a|t] o k]; cbn; [|reflexivity].
  destruct (f a k) as [[b|t] o' k']; cbn; [|reflexivity].
  now rewrite app_assoc.
Qed.

(** Once the process has ended, nothing that follows runs. *)
Lemma bind_Exit {A B} (code : Z) (f : A -> M B) (d : list string) :
  bind (Exit code) f d = Exit code d.
Proof. reflexivity. Qed.

(** [exit] ends the process with the code it is given, touches no file and
    writes at most the error text. *)
Lemma exit_run (code : Z) (err : option error) (d : list string) :
  res (fzfmain.exit code err d) = Halt (Exited code)
  /\ disk (fzfmain.exit code err d) = d
  /\ (out (fzfmain.exit code err d) = []
      \/ exists e, err = Some e /\ code = fzf.ExitError
                   /\ out (fzfmain.exit code err d) = [Stderr (Error e ++ LF)]).
Proof.
  unfold fzfmain.exit.
  destruct err as [e|]; [destruct (Z.eqb_spec code fzf.ExitError)|]; cbn;
    repeat split; auto.
  right. exists e. auto.
Qed.

(** ** [src/winpty.go] *)

(** C10: on a build that is not for Windows, [needWinpty] is false for every
    options value and [runWinpty] returns the exit code [ExitError], the empty
    string and the error "Not supported", so it never succeeds: its error is
    never [nil] and its code is never [ExitOk]. *)
Theorem winpty_not_supported (args : list string) (opts : option fzf.Options) :
  fzf.needWinpty opts = false
  /\ fzf.runWinpty args opts
     = (fzf.ExitError, "", Some (errors_New "Not supported"))
  /\ snd (fzf.runWinpty args opts) <> None
  /\ fst (fst (fzf.runWinpty args opts)) <> fzf.ExitOk.
Proof.
  repeat split; cbn; discriminate.
Qed.

(** ** The guard of the handoff in [main] *)

Lemma wantsAutoCD_spec (code : Z) (options : fzf.Options) (item : string) :
  fzfmain.wantsAutoCD code options item = true
  <-> code = fzf.ExitOk /\ fzf.AutoCD options = true /\ item <> "".
Proof.
  unfold fzfmain.wantsAutoCD.
  rewrite !andb_true_iff, negb_true_iff, Z.eqb_eq, String.eqb_neq.
  tauto.
Qed.

Lemma finish_without_handoff w lib options code item err d :
  fzfmain.wantsAutoCD code options item = false ->
  fzfmain.finish w lib options code item err d = fzfmain.exit code err d.
Proof.
  intros H. unfold fzfmain.finish. rewrite H.
  unfold bind at 1. cbn.
  destruct (fzfmain.exit code err d); reflexivity.
Qed.

Lemma exit_onlyStderr code err d : onlyStderr (out (fzfmain.exit code err d)).
Proof.
  destruct (exit_run code err d) as (_ & _ & [H | (e & _ & _ & H)]);
    rewrite H; intros ev Hin; cbn in Hin.
  - contradiction.
  - destruct Hin as [<- | []]. eauto.
Qed.

Section WholeProgram.

Variable w : World.
Variable ParseOptions : bool -> list string -> fzf.Options * option error.
Variable Run : fzf.Options -> M (Z * string * option error).
Variable Usage : string.
Variable WriteTemporaryFile : list string -> string -> M string.
Variable runMan : string -> M (option error).
Variable Protect : M unit.
Variables bashKeyBindings bashCompletion zshKeyBindings zshCompletion
  fishKeyBindings manPage : string.

Let program (lib : string -> M unit -> M unit) : list string -> M unit :=
  fzfmain.main w ParseOptions Run Usage WriteTemporaryFile runMan Protect
               bashKeyBindings bashCompletion zshKeyBindings zshCompletion
               fishKeyBindings manPage lib.

(** When the command line parses and asks for none of the informational
    actions, [main] is the selector followed by [finish]. *)
Lemma main_runs_selector (lib : string -> M unit -> M unit)
  (prog : string) (arguments : list string) (options : fzf.Options) :
  ParseOptions true arguments = (options, None) ->
  fzf.Bash options = false -> fzf.Zsh options = false ->
  fzf.Fish options = false -> fzf.Help options = false ->
  fzf.Version options = false -> fzf.Man options = false ->
  program lib (prog :: arguments)
  = bind Protect (fun _ =>
      bind (Run options) (fun r =>
        let '(code, selectedItem, err) := r in
        fzfmain.finish w lib options code selectedItem err)).
Proof.
  intros Hparse H1 H2 H3 H4 H5 H6. unfold program, fzfmain.main.
  now rewrite Hparse, H1, H2, H3, H4, H5, H6.
Qed.

(** When the command line does not parse, or asks for an informational
    action, [main] does not depend on the handoff library at all. *)
Lemma main_without_selector (lib lib' : string -> M unit -> M unit)
  (Args : list string) :
  (snd (ParseOptions true (tl Args)) <> None
   \/ (fzf.Bash (fst (ParseOptions true (tl Args)))
       || fzf.Zsh (fst (ParseOptions true (tl Args)))
       || fzf.Fish (fst (ParseOptions true (tl Args)))
       || fzf.Help (fst (ParseOptions true (tl Args)))
       || fzf.Version (fst (ParseOptions true (tl Args)))
       || fzf.Man (fst (ParseOptions true (tl Args)))) = true) ->
  program lib Args = program lib' Args.
Proof.
  unfold program, fzfmain.main.
  destruct Args as [|prog arguments]; [reflexivity|].
  cbn [tl]. destruct (ParseOptions true arguments) as [options [e|]];
    [reflexivity|].
  cbn [fst snd]. intros [H|H]; [contradiction|].
  destruct (fzf.Bash options); [reflexivity|].
  destruct (fzf.Zsh options); [reflexivity|].
  destruct (fzf.Fish options); [reflexivity|].
  destruct (fzf.Help options); [reflexivity|].
  destruct (fzf.Version options); [reflexivity|].
  destruct (fzf.Man options); [reflexivity|discriminate].
Qed.

End WholeProgram.

(** C8: when the selected path is the empty string the handoff is skipped,
    whatever the library would do: the end of [main] is exactly the call of
    [exit], so the process ends with the selector's code through the normal
    exit path, no file is written or removed, and the only event there can
    be is the error text on standard error. *)
Theorem empty_selection_skips_handoff
  (w : World) (lib : string -> M unit -> M unit) (options : fzf.Options)
  (code : Z) (err : option error) (d : list string) :
  fzfmain.finish w lib options code "" err d = fzfmain.exit code err d
  /\ res (fzfmain.finish w lib options code "" err d) = Halt (Exited code)
  /\ disk (fzfmain.finish w lib options code "" err d) = d
  /\ onlyStderr (out (fzfmain.finish w lib options code "" err d)).
Proof.
  assert (E : fzfmain.finish w lib options code "" err d
              = fzfmain.exit code err d).
  { apply finish_without_handoff. unfold fzfmain.wantsAutoCD.
    cbn. now rewrite andb_false_r. }
  rewrite E. split; [reflexivity|].
  destruct (exit_run code err d) as (Hres & Hdisk & _).
  repeat split; auto using exit_onlyStderr.
Qed.

(** C9: the handoff is attempted exactly when the selector returned [ExitOk],
    the autocd option is on and the selected item is not empty: then the
    end of [main] is [handleAutoCD] followed by [exit]; in every other case
    it is [exit] alone, for every library, so the process ends with the
    selector's own code and nothing of the handoff happens. *)
Theorem handoff_attempted_iff
  (w : World) (lib : string -> M unit -> M unit) (options : fzf.Options)
  (code : Z) (item : string) (err : option error) (d : list string) :
  (code = fzf.ExitOk /\ fzf.AutoCD options = true /\ item <> "" ->
   fzfmain.finish w lib options code item err d
   = bind (fzfmain.handleAutoCD w lib item)
          (fun _ => fzfmain.exit code err) d)
  /\ (~ (code = fzf.ExitOk /\ fzf.AutoCD options = true /\ item <> "") ->
      fzfmain.finish w lib options code item err d = fzfmain.exit code err d
      /\ res (fzfmain.finish w lib options code item err d)
         = Halt (Exited code)
      /\ disk (fzfmain.finish w lib options code item err d) = d
      /\ onlyStderr (out (fzfmain.finish w lib options code item err d))).
Proof.
  split; intros H.
  - apply wantsAutoCD_spec in H. unfold fzfmain.finish. now rewrite H.
  - assert (W : fzfmain.wantsAutoCD code options item = false).
    { destruct (fzfmain.wantsAutoCD code options item) eqn:E; [|reflexivity].
      apply wantsAutoCD_spec in E. contradiction. }
    rewrite (finish_without_handoff _ _ _ _ _ _ _ W).
    destruct (exit_run code err d) as (Hres & Hdisk & _).
    repeat split; auto using exit_onlyStderr.
Qed.

(** ** The pipeline of the handoff library, case by case *)

Ltac stages w path level override :=
  try unfold autocd.invoke;
  destruct (autocd.resolve w path) as [e1|spec] eqn:Hresolve;
  [|destruct (autocd.validate w spec level) as [e2|[]] eqn:Hvalidate;
    [|destruct (autocd.detect w override) as [e3|sh] eqn:Hdetect;
      [|unfold autocd.generate;
        destruct (tempWritable w) eqn:Hwritable;
        [unfold autocd.scriptFor;
         destruct (autocd.scriptDialect sh) eqn:Hdialect;
         unfold autocd.execute;
         (destruct (platform w) eqn:Hplatform;
          [destruct (execErrno w) as [errno|] eqn:Herrno
          |destruct (execErrno w) as [errno|] eqn:Herrno
          |])
        |]]]].

Ltac pipeline w path opts :=
  stages w path (autocd.securityLevel opts) (autocd.shellOverride opts).

Ltac evaluate := cbn; rewrite ?String.eqb_refl; cbn.

(** ** [path/filepath]: parents and absolute paths *)

Lemma hasSeparator_app (a b : string) :
  filepath.hasSeparator (a ++ b)
  = filepath.hasSeparator a || filepath.hasSeparator b.
Proof.
  induction a as [|c a IH]; cbn; [reflexivity|].
  now rewrite IH, orb_assoc.
Qed.

(** The loop of [Dir] stops at the separator in front of the last element. *)
Lemma uptoLastSeparator_child (dir name : string) :
  filepath.hasSeparator name = false ->
  filepath.uptoLastSeparator (dir ++ String filepath.Separator name)
  = (dir ++ String filepath.Separator EmptyString)%string.
Proof.
  intros Hname. induction dir as [|c dir IH].
  - cbn. destruct name as [|c name]; [reflexivity|].
    cbn in Hname. cbn. now rewrite Hname.
  - change ((String c dir) ++ String filepath.Separator name)%string
      with (String c (dir ++ String filepath.Separator name)%string).
    cbn [filepath.uptoLastSeparator].
    replace (filepath.hasSeparator
               (String c (dir ++ String filepath.Separator name))) with true.
    + now rewrite IH.
    + cbn [filepath.hasSeparator]. rewrite hasSeparator_app. cbn.
      now rewrite !orb_true_r.
Qed.

(** [Dir] of an entry [name] inside [dir] is [dir], cleaned. *)
Lemma Dir_child (dir name : string) :
  filepath.hasSeparator name = false ->
  filepath.Dir (dir ++ String filepath.Separator name)
  = filepath.Clean (dir ++ String filepath.Separator EmptyString).
Proof.
  intros H. unfold filepath.Dir. now rewrite uptoLastSeparator_child.
Qed.

Lemma append_assoc (a b c : string) :
  ((a ++ b) ++ c = a ++ (b ++ c))%string.
Proof. induction a as [|x a IH]; cbn; [reflexivity|now rewrite IH]. Qed.

Lemma uptoLastSeparator_name (name : string) :
  filepath.hasSeparator name = false ->
  filepath.uptoLastSeparator name = EmptyString.
Proof.
  destruct name as [|c name]; [reflexivity|].
  cbn [filepath.uptoLastSeparator]. now intros ->.
Qed.

Lemma elements_component (a rest : string) :
  filepath.hasSeparator a = false ->
  filepath.elements (a ++ String filepath.Separator rest)
  = a :: filepath.elements rest.
Proof.
  induction a as [|c a IH]; cbn; [reflexivity|].
  destruct (filepath.IsPathSeparator c); [discriminate|].
  intros H. now rewrite IH.
Qed.

Lemma plain_no_separator (name : string) :
  filepath.plain name = true -> filepath.hasSeparator name = false.
Proof.
  unfold filepath.plain. rewrite !andb_true_iff, !negb_true_iff. tauto.
Qed.

Lemma cleanStep_plain (rooted : bool) (out : list string) (name : string) :
  filepath.plain name = true ->
  filepath.cleanStep rooted out name = name :: out.
Proof.
  unfold filepath.plain, filepath.cleanStep.
  rewrite !andb_true_iff, !negb_true_iff.
  intros [[[-> ->] ->] _]. reflexivity.
Qed.

Lemma clean_plain_elements (rooted : bool) (names out : list string) :
  forallb filepath.plain names = true ->
  fold_left (filepath.cleanStep rooted) names out = rev names ++ out.
Proof.
  revert out. induction names as [|n names IH]; intros out; [reflexivity|].
  cbn. rewrite andb_true_iff. intros [Hn Hnames].
  rewrite cleanStep_plain, IH by assumption.
  now rewrite <- app_assoc.
Qed.

(** The elements of a directory path written with a trailing separator. *)
Lemma elements_of_directory (n : string) (names : list string) :
  forallb filepath.plain (n :: names) = true ->
  filepath.elements
    (strings.Join (n :: names) "/" ++ String filepath.Separator EmptyString)
  = (n :: names) ++ [EmptyString].
Proof.
  revert n. induction names as [|m names IH]; intros n H.
  - cbn in H. rewrite andb_true_r in H. cbn [strings.Join].
    now rewrite elements_component by now apply plain_no_separator.
  - cbn [forallb] in H. apply andb_true_iff in H. destruct H as [Hn H].
    change (strings.Join (n :: m :: names) "/")
      with (n ++ String filepath.Separator (strings.Join (m :: names) "/"))
           %string.
    rewrite append_assoc.
    change ((String filepath.Separator (strings.Join (m :: names) "/")
             ++ String filepath.Separator EmptyString)%string)
      with (String filepath.Separator
              (strings.Join (m :: names) "/"
               ++ String filepath.Separator EmptyString)%string).
    rewrite elements_component by now apply plain_no_separator.
    now rewrite IH.
Qed.

(** An absolute directory path with a trailing separator cleans to the path
    without it. *)
Lemma Clean_of_directory (names : list string) :
  forallb filepath.plain names = true ->
  names <> [] ->
  filepath.Clean
    (filepath.rooted names ++ String filepath.Separator EmptyString)
  = filepath.rooted names.
Proof.
  intros Hplain Hne. destruct names as [|n names]; [contradiction|].
  unfold filepath.rooted, filepath.Clean.
  cbn [String.append filepath.IsPathSeparator filepath.Separator Ascii.eqb
       Bool.eqb].
  cbn [filepath.elements filepath.IsPathSeparator filepath.Separator
       Ascii.eqb Bool.eqb].
  rewrite elements_of_directory by assumption.
  change (fold_left (filepath.cleanStep true)
            (EmptyString :: (n :: names) ++ [EmptyString]) [])
    with (fold_left (filepath.cleanStep true)
            ((n :: names) ++ [EmptyString]) []).
  rewrite fold_left_app, (clean_plain_elements true (n :: names) [] Hplain).
  change (fold_left (filepath.cleanStep true) [EmptyString]
            (rev (n :: names) ++ []))
    with (rev (n :: names) ++ []).
  now rewrite app_nil_r, rev_involutive.
Qed.

Lemma elements_name (name : string) :
  filepath.hasSeparator name = false -> filepath.elements name = [name].
Proof.
  induction name as [|c name IH]; cbn; [reflexivity|].
  destruct (filepath.IsPathSeparator c); [discriminate|].
  intros H. now rewrite IH.
Qed.

Lemma elements_of_path (n : string) (names : list string) :
  forallb filepath.plain (n :: names) = true ->
  filepath.elements (strings.Join (n :: names) "/") = n :: names.
Proof.
  revert n. induction names as [|m names IH]; intros n H.
  - cbn in H. rewrite andb_true_r in H. cbn [strings.Join].
    now apply elements_name, plain_no_separator.
  - cbn [forallb] in H. apply andb_true_iff in H. destruct H as [Hn H].
    change (strings.Join (n :: m :: names) "/")
      with (n ++ String filepath.Separator (strings.Join (m :: names) "/"))
           %string.
    rewrite elements_component by now apply plain_no_separator.
    now rewrite IH.
Qed.

(** An absolute path made of plain names is clean already. *)
Lemma Clean_rooted (names : list string) :
  forallb filepath.plain names = true ->
  filepath.Clean (filepath.rooted names) = filepath.rooted names.
Proof.
  intros Hplain. destruct names as [|n names]; [reflexivity|].
  unfold filepath.rooted, filepath.Clean.
  cbn [filepath.elements filepath.IsPathSeparator filepath.Separator
       Ascii.eqb Bool.eqb].
  rewrite elements_of_path by assumption.
  change (fold_left (filepath.cleanStep true)
            (EmptyString :: n :: names) [])
    with (fold_left (filepath.cleanStep true) (n :: names) []).
  rewrite (clean_plain_elements true (n :: names) [] Hplain).
  now rewrite app_nil_r, rev_involutive.
Qed.

Lemma Join_snoc (n : string) (names : list string) (name : string) :
  strings.Join ((n :: names) ++ [name]) "/"
  = (strings.Join (n :: names) "/" ++ String filepath.Separator name)%string.
Proof.
  revert n. induction names as [|m names IH]; intros n; [reflexivity|].
  change (strings.Join ((n :: m :: names) ++ [name]) "/")
    with (n ++ String filepath.Separator
                 (strings.Join ((m :: names) ++ [name]) "/"))%string.
  rewrite IH.
  change (strings.Join (n :: m :: names) "/")
    with (n ++ String filepath.Separator (strings.Join (m :: names) "/"))
         %string.
  now rewrite append_assoc.
Qed.

(** [Dir] of an entry given by its absolute path is the absolute path of the
    directory that holds it. *)
Lemma Dir_of_entry (names : list string) (name : string) :
  forallb filepath.plain (names ++ [name]) = true ->
  filepath.Dir (filepath.rooted (names ++ [name])) = filepath.rooted names.
Proof.
  rewrite forallb_app. cbn [forallb]. rewrite andb_true_r, andb_true_iff.
  intros [Hnames Hname]. apply plain_no_separator in Hname.
  destruct names as [|n names].
  - unfold filepath.rooted, filepath.Dir. cbn [app strings.Join].
    cbn [filepath.uptoLastSeparator filepath.hasSeparator
         filepath.IsPathSeparator filepath.Separator Ascii.eqb Bool.eqb orb].
    now rewrite uptoLastSeparator_name.
  - unfold filepath.rooted at 1. rewrite Join_snoc.
    change (String filepath.Separator
              (strings.Join (n :: names) "/"
               ++ String filepath.Separator name)%string)
      with (filepath.rooted (n :: names)
            ++ String filepath.Separator name)%string.
    rewrite Dir_child by assumption.
    apply Clean_of_directory; [assumption|discriminate].
Qed.

Lemma Clean_IsAbs (path : string) :
  filepath.IsAbs path = true -> filepath.IsAbs (filepath.Clean path) = true.
Proof.
  destruct path as [|c rest]; cbn; [discriminate|].
  intros ->. reflexivity.
Qed.

Lemma Dir_IsAbs (path : string) :
  filepath.IsAbs path = true -> filepath.IsAbs (filepath.Dir path) = true.
Proof.
  intros H. apply Clean_IsAbs.
  destruct path as [|c rest]; [discriminate|].
  cbn in H. cbn. now rewrite H.
Qed.

Lemma Join_IsAbs (wd path : string) :
  filepath.IsAbs wd = true -> filepath.IsAbs (filepath.Join wd path) = true.
Proof.
  intros H. unfold filepath.Join.
  destruct wd as [|c wd]; [discriminate|].
  cbn [String.eqb].
  destruct (path =? ""); apply Clean_IsAbs; exact H.
Qed.

Lemma Abs_IsAbs (wd : option string) (path abs : string) :
  (forall d, wd = Some d -> filepath.IsAbs d = true) ->
  filepath.Abs wd path = Some abs -> filepath.IsAbs abs = true.
Proof.
  intros Hwd. unfold filepath.Abs.
  destruct (filepath.IsAbs path) eqn:Hp.
  - intros [= <-]. now apply Clean_IsAbs.
  - destruct wd as [d|]; [|discriminate].
    intros [= <-]. apply Join_IsAbs. now apply Hwd.
Qed.

(** ** What [handleAutoCD] resolves the selected item to *)

Lemma isDirectory_spec (w : World) (path : string) :
  fzfmain.isDirectory w path = true
  <-> exists info, stat w path = Some info /\ os.kind info = Directory.
Proof.
  unfold fzfmain.isDirectory, IsDir. split.
  - destruct (stat w path) as [info|]; [|discriminate].
    destruct (os.kind info) eqn:K; try discriminate. eauto.
  - intros (info & -> & ->). reflexivity.
Qed.

Lemma targetDir_not_directory (w : World) (path : string) (info : FileInfo) :
  stat w path = Some info ->
  os.kind info <> Directory ->
  fzfmain.targetDir w path = filepath.Dir path.
Proof.
  intros Hstat K. unfold fzfmain.targetDir.
  destruct (fzfmain.isDirectory w path) eqn:E; [|reflexivity].
  apply isDirectory_spec in E. destruct E as (i & Hi & Ki).
  congruence.
Qed.

Lemma targetDir_directory (w : World) (path : string) (info : FileInfo) :
  stat w path = Some info ->
  os.kind info = Directory ->
  fzfmain.targetDir w path = path.
Proof.
  intros Hstat K. unfold fzfmain.targetDir.
  replace (fzfmain.isDirectory w path) with true; [reflexivity|].
  symmetry. apply isDirectory_spec. eauto.
Qed.

(** C4: for an existing directory [handleAutoCD] resolves to the directory
    itself; for an existing regular file, and any other entry that is not a
    directory, it resolves to [filepath.Dir] of it, which for a file given
    by its absolute path is the absolute path of the directory that holds
    it; nothing else is tried, and this is the path the handoff library is
    called with. *)
Theorem targetDir_resolution (w : World) (path : string) (info : FileInfo)
  (Hstat : stat w path = Some info) :
  (os.kind info = Directory -> fzfmain.targetDir w path = path)
  /\ (os.kind info = Regular ->
      fzfmain.targetDir w path = filepath.Dir path
      /\ forall names name,
           path = filepath.rooted (names ++ [name]) ->
           forallb filepath.plain (names ++ [name]) = true ->
           fzfmain.targetDir w path = filepath.rooted names)
  /\ (os.kind info <> Directory ->
      fzfmain.targetDir w path = filepath.Dir path)
  /\ (fzfmain.targetDir w path = path
      \/ fzfmain.targetDir w path = filepath.Dir path)
  /\ forall lib d,
       fzfmain.handleAutoCD w lib path d
       = bind (match ttyDevice w with
               | Some ttyin => emit (SetStdin ttyin)
               | None => ret tt
               end)
              (fun _ => lib (fzfmain.targetDir w path) fzfmain.fallback) d.
Proof.
  pose proof (targetDir_not_directory w path info Hstat) as Hnot.
  pose proof (targetDir_directory w path info Hstat) as Hdir.
  repeat split.
  - exact Hdir.
  - apply Hnot. congruence.
  - intros names name -> Hplain. rewrite Hnot by congruence.
    now apply Dir_of_entry.
  - exact Hnot.
  - destruct (os.kind info) eqn:K; [left; now apply Hdir| |];
      right; apply Hnot; congruence.
Qed.

(** ** The handoff returns only when it failed *)

Lemma runScript_returns (self : string) (stmts : list Stmt) :
  forall dir d, res (autocd.runScript self dir stmts d) = Ret tt.
Proof.
  induction stmts as [|st rest IH]; intros dir d; [reflexivity|].
  destruct st; cbn; try reflexivity; rewrite IH; reflexivity.
Qed.

Lemma execute_outcome (w : World) (art : autocd.ScriptArtifact) d :
  match res (autocd.execute w art d) with
  | Ret e => (platform w = NoHandoff /\ e = autocd.UnsupportedPlatform)
             \/ exists n, execErrno w = Some n /\ e = autocd.ExecFailed n
  | Halt Replaced => platform w = InPlace /\ execErrno w = None
  | Halt (Exited c) =>
      platform w = SpawnWait /\ execErrno w = None /\ c = childExit w
  end.
Proof.
  unfold autocd.execute.
  destruct (platform w); [destruct (execErrno w) eqn:E
                         |destruct (execErrno w) eqn:E|];
    try (cbn; eauto; fail);
    unfold bind, emit; cbn [res disk out];
    rewrite runScript_returns; cbn; auto.
Qed.

Lemma invoke_outcome (w : World) (path : string)
  (opts : autocd.HandoffOptions) (d : list string) :
  match res (autocd.invoke w path opts d) with
  | Ret e => autocd.stageFailed w path opts e
  | Halt Replaced => platform w = InPlace /\ execErrno w = None
  | Halt (Exited c) =>
      platform w = SpawnWait /\ execErrno w = None /\ c = childExit w
  end.
Proof.
  unfold autocd.stageFailed.
  pipeline w path opts; destruct (autocd.debug opts); evaluate; eauto 12.
Qed.

(** An existing directory that the user can read and enter, given by its
    absolute path, passes the resolver and, below the Strict level, the
    security policy. *)
Lemma valid_directory_accepted (w : World) (names : list string)
  (info : FileInfo) (level : autocd.SecurityLevel) :
  forallb filepath.plain names = true ->
  stat w (filepath.rooted names) = Some info ->
  os.kind info = Directory ->
  readable info = true ->
  executable info = true ->
  level <> autocd.Strict ->
  exists spec,
    autocd.resolve w (filepath.rooted names) = inr spec
    /\ autocd.resolvedDir spec = filepath.rooted names
    /\ autocd.validate w spec level = inr tt.
Proof.
  intros Hplain Hstat Hkind Hr Hx Hlevel.
  exists {| autocd.rawPath := filepath.rooted names;
            autocd.resolvedDir := filepath.rooted names;
            autocd.exists_ := true |}.
  split; [|split; [reflexivity|]].
  - unfold autocd.resolve, filepath.Abs.
    change (filepath.rooted names =? "") with false.
    change (filepath.IsAbs (filepath.rooted names)) with true.
    cbn match. rewrite Clean_rooted, Hstat by assumption.
    unfold IsDir. now rewrite Hkind.
  - unfold autocd.validate, autocd.dirExists, autocd.canEnter, IsDir.
    cbn [autocd.resolvedDir]. rewrite Hstat, Hkind, Hr, Hx. cbn.
    destruct level; try reflexivity. contradiction.
Qed.

(** A configured shell whose executable exists is detected. *)
Lemma configured_shell_detected (w : World) (shell : string) :
  autocd.configuredShell w = Some shell ->
  autocd.isExecutableFile w shell = true ->
  autocd.detect w None
  = inr (autocd.describeShell (autocd.kindOfName (filepath.Base shell))
                              shell).
Proof. intros H1 H2. unfold autocd.detect. now rewrite H1, H2. Qed.

Lemma invoke_succeeds (w : World) (path : string)
  (opts : autocd.HandoffOptions) (d : list string) spec sh :
  autocd.resolve w path = inr spec ->
  autocd.validate w spec (autocd.securityLevel opts) = inr tt ->
  autocd.detect w (autocd.shellOverride opts) = inr sh ->
  tempWritable w = true ->
  execErrno w = None ->
  res (autocd.invoke w path opts d)
  = match platform w with
    | InPlace => Halt Replaced
    | SpawnWait => Halt (Exited (childExit w))
    | NoHandoff => Ret autocd.UnsupportedPlatform
    end.
Proof.
  intros H1 H2 H3 H4 H5. unfold autocd.invoke, autocd.generate.
  rewrite H1, H2, H3, H4. unfold autocd.execute, autocd.scriptFor.
  rewrite H5.
  destruct (autocd.scriptDialect sh), (platform w), (autocd.debug opts);
    reflexivity.
Qed.

(** The standard output of the pipeline is the confirmation line of the
    script, or nothing. *)
Lemma invoke_stdout (w : World) (path : string)
  (opts : autocd.HandoffOptions) (d : list string) (text : string) :
  In (Stdout text) (out (autocd.invoke w path opts d)) ->
  exists dir, text = (autocd.confirmation dir ++ LF)%string.
Proof.
  pipeline w path opts; destruct (autocd.debug opts); evaluate;
    intros H; repeat (destruct H as [H|H]; try discriminate H);
    try contradiction; injection H as <-; eauto.
Qed.

Lemma reproduction_never_reports_bug (w : World) (args : list string) d :
  ~ In (Stdout repro.bugLine)
       (out (repro.main w _ (autocd.ExitWithDirectory w) autocd.describe
                        args d)).
Proof.
  unfold repro.main.
  destruct (negb (length args =? 2)%nat).
  - destruct args; cbn; intuition discriminate.
  - set (target := nth 1 args "").
    unfold autocd.ExitWithDirectory.
    rewrite !run_bind. cbn -[autocd.invoke].
    destruct (res (autocd.invoke w target (autocd.defaultOptions w) d)) eqn:R;
      cbn -[autocd.invoke]; intros H;
      repeat (destruct H as [H|H]; [discriminate H|]);
      repeat (apply in_app_or in H; destruct H as [H|H]);
      try (apply invoke_stdout in H; destruct H as [dir H]; discriminate H);
      cbn in H; intuition discriminate.
Qed.

(** C1: the handoff returns to its caller only when a stage failed, with the
    error of that stage.  When no stage fails the call does not return: on
    a platform with in-place replacement the process image is replaced, and
    on a platform without it the host process exits with exactly the exit
    code of the spawned child.  This is so in particular on an existing
    directory that the user can read and enter, given by its absolute path,
    when the configured shell exists, the script can be written and the
    operating system starts the interpreter.  The executor alone returns only when
    the primitive reports an error or the platform has no handoff, and the
    reproduction program never reaches the line behind its call of
    [ExitWithDirectory]. *)
Theorem handoff_returns_only_on_failure (w : World) (path : string)
  (opts : autocd.HandoffOptions) (d : list string) :
  match res (autocd.invoke w path opts d) with
  | Ret e => autocd.stageFailed w path opts e
  | Halt Replaced => platform w = InPlace /\ execErrno w = None
  | Halt (Exited c) =>
      platform w = SpawnWait /\ execErrno w = None /\ c = childExit w
  end
  /\ (forall art,
        match res (autocd.execute w art d) with
        | Ret e => (platform w = NoHandoff /\ e = autocd.UnsupportedPlatform)
                   \/ exists n, execErrno w = Some n
                                /\ e = autocd.ExecFailed n
        | Halt Replaced => platform w = InPlace /\ execErrno w = None
        | Halt (Exited c) =>
            platform w = SpawnWait /\ execErrno w = None /\ c = childExit w
        end)
  /\ (forall spec sh,
        autocd.resolve w path = inr spec ->
        autocd.validate w spec (autocd.securityLevel opts) = inr tt ->
        autocd.detect w (autocd.shellOverride opts) = inr sh ->
        tempWritable w = true ->
        execErrno w = None ->
        (platform w = InPlace ->
         res (autocd.invoke w path opts d) = Halt Replaced)
        /\ (platform w = SpawnWait ->
            res (autocd.invoke w path opts d) = Halt (Exited (childExit w))))
  /\ (forall names info shell,
        forallb filepath.plain names = true ->
        stat w (filepath.rooted names) = Some info ->
        os.kind info = Directory ->
        readable info = true ->
        executable info = true ->
        autocd.securityLevel opts <> autocd.Strict ->
        autocd.shellOverride opts = None ->
        autocd.configuredShell w = Some shell ->
        autocd.isExecutableFile w shell = true ->
        tempWritable w = true ->
        execErrno w = None ->
        (platform w = InPlace ->
         res (autocd.invoke w (filepath.rooted names) opts d) = Halt Replaced)
        /\ (platform w = SpawnWait ->
            res (autocd.invoke w (filepath.rooted names) opts d)
            = Halt (Exited (childExit w))))
  /\ (forall args,
        ~ In (Stdout repro.bugLine)
             (out (repro.main w _ (autocd.ExitWithDirectory w)
                              autocd.describe args d))).
Proof.
  split; [apply invoke_outcome|].
  split; [intros art; apply execute_outcome|].
  split; [|split; [|intros args; apply reproduction_never_reports_bug]].
  - intros spec sh H1 H2 H3 H4 H5.
    rewrite (invoke_succeeds w path opts d spec sh H1 H2 H3 H4 H5).
    split; intros ->; reflexivity.
  - intros names info shell Hplain Hstat Hkind Hr Hx Hlevel Hnone Hshell
           Hexe H4 H5.
    destruct (valid_directory_accepted w names info _ Hplain Hstat Hkind
                Hr Hx Hlevel) as (spec & H1 & _ & H2).
    pose proof (configured_shell_detected w shell Hshell Hexe) as H3.
    rewrite <- Hnone in H3.
    rewrite (invoke_succeeds w _ opts d spec _ H1 H2 H3 H4 H5).
    split; intros ->; reflexivity.
Qed.

(** ** The guaranteed-exit entry point *)

Lemma invoke_calls_no_fallback (w : World) (path : string)
  (opts : autocd.HandoffOptions) (d : list string) :
  fallbackCalls (out (autocd.invoke w path opts d)) = 0.
Proof.
  pipeline w path opts; destruct (autocd.debug opts); evaluate; reflexivity.
Qed.

Lemma invokeOrFallback_run (w : World) (path : string)
  (opts : autocd.HandoffOptions) (fb : M unit) (d : list string) :
  autocd.invokeOrFallback w path opts fb d =
  match res (autocd.invoke w path opts d) with
  | Ret _ =>
      mkRun (match res (fb (disk (autocd.invoke w path opts d))) with
             | Ret _ => Halt (Exited 0)
             | Halt t => Halt t
             end)
            (out (autocd.invoke w path opts d)
             ++ FallbackCalled
                :: out (fb (disk (autocd.invoke w path opts d))))
            (disk (fb (disk (autocd.invoke w path opts d))))
  | Halt t => mkRun (Halt t) (out (autocd.invoke w path opts d))
                    (disk (autocd.invoke w path opts d))
  end.
Proof.
  unfold autocd.invokeOrFallback. rewrite run_bind.
  destruct (res (autocd.invoke w path opts d)); [|reflexivity].
  rewrite !run_bind. cbn [emit res out disk].
  destruct (res (fb _)); cbn; rewrite ?app_nil_r; reflexivity.
Qed.

(** The run of [handleAutoCD] with the library, in terms of the run of the
    pipeline on the directory it computed. *)
Lemma handleAutoCD_run (w : World) (item : string) (d : list string) :
  fzfmain.handleAutoCD w (autocd.ExitWithDirectoryOrFallback w) item d =
  match res (autocd.invoke w (fzfmain.targetDir w item)
                           (autocd.defaultOptions w) d) with
  | Ret _ =>
      mkRun (Halt (Exited 0))
            (fzfmain.ttyEvents w
             ++ out (autocd.invoke w (fzfmain.targetDir w item)
                                   (autocd.defaultOptions w) d)
             ++ [FallbackCalled; Stderr fzfmain.failureMessage])
            (disk (autocd.invoke w (fzfmain.targetDir w item)
                                 (autocd.defaultOptions w) d))
  | Halt t =>
      mkRun (Halt t)
            (fzfmain.ttyEvents w
             ++ out (autocd.invoke w (fzfmain.targetDir w item)
                                   (autocd.defaultOptions w) d))
            (disk (autocd.invoke w (fzfmain.targetDir w item)
                                 (autocd.defaultOptions w) d))
  end.
Proof.
  unfold fzfmain.handleAutoCD, autocd.ExitWithDirectoryOrFallback, fzfmain.ttyEvents.
  rewrite run_bind.
  destruct (ttyDevice w); cbn [emit ret res out disk];
    rewrite invokeOrFallback_run;
    destruct (res (autocd.invoke _ _ _ _)); reflexivity.
Qed.

Lemma fallbackCalls_app (a b : list Event) :
  fallbackCalls (a ++ b) = fallbackCalls a + fallbackCalls b.
Proof. unfold fallbackCalls. now rewrite filter_app, length_app. Qed.

Lemma ttyEvents_no_fallback (w : World) : fallbackCalls (fzfmain.ttyEvents w) = 0.
Proof. unfold fzfmain.ttyEvents. destruct (ttyDevice w); reflexivity. Qed.

(** C2: [invokeOrFallback] never returns to its caller.  When a stage of the
    pipeline fails, the events of the run are those of the pipeline, which
    never enters the fallback itself, then one entry into the fallback and
    what the fallback does; a fallback that returns is followed by exit
    code 0.  With the fallback of [handleAutoCD], every failing run enters
    the fallback exactly once and ends the process with exit code 0, and
    [handleAutoCD] never returns either. *)
Theorem fallback_once_then_exit (w : World) (path item : string)
  (opts : autocd.HandoffOptions) (fb : M unit) (d : list string) :
  (forall a, res (autocd.invokeOrFallback w path opts fb d) <> Ret a)
  /\ match res (autocd.invoke w path opts d) with
     | Ret _ =>
         out (autocd.invokeOrFallback w path opts fb d)
         = out (autocd.invoke w path opts d)
           ++ FallbackCalled
              :: out (fb (disk (autocd.invoke w path opts d)))
         /\ fallbackCalls (out (autocd.invoke w path opts d)) = 0
         /\ res (autocd.invokeOrFallback w path opts fb d)
            = match res (fb (disk (autocd.invoke w path opts d))) with
              | Ret _ => Halt (Exited 0)
              | Halt t => Halt t
              end
     | Halt t =>
         res (autocd.invokeOrFallback w path opts fb d) = Halt t
         /\ fallbackCalls (out (autocd.invokeOrFallback w path opts fb d)) = 0
     end
  /\ match res (autocd.invoke w (fzfmain.targetDir w item)
                              (autocd.defaultOptions w) d) with
     | Ret _ =>
         res (fzfmain.handleAutoCD w (autocd.ExitWithDirectoryOrFallback w)
                                   item d) = Halt (Exited 0)
         /\ fallbackCalls
              (out (fzfmain.handleAutoCD
                      w (autocd.ExitWithDirectoryOrFallback w) item d)) = 1
     | Halt t =>
         res (fzfmain.handleAutoCD w (autocd.ExitWithDirectoryOrFallback w)
                                   item d) = Halt t
         /\ fallbackCalls
              (out (fzfmain.handleAutoCD
                      w (autocd.ExitWithDirectoryOrFallback w) item d)) = 0
     end
  /\ (forall a, res (fzfmain.handleAutoCD
                       w (autocd.ExitWithDirectoryOrFallback w) item d)
                <> Ret a).
Proof.
  rewrite invokeOrFallback_run, handleAutoCD_run.
  pose proof (invoke_calls_no_fallback w path opts d) as Hpath.
  pose proof (invoke_calls_no_fallback w (fzfmain.targetDir w item)
                                       (autocd.defaultOptions w) d) as Hitem.
  repeat split.
  - intros a. destruct (res (autocd.invoke w path opts d));
      [destruct (res (fb _))|]; discriminate.
  - destruct (res (autocd.invoke w path opts d)); cbn [res out]; auto.
  - destruct (res (autocd.invoke w (fzfmain.targetDir w item) _ d));
      cbn [res out]; rewrite !fallbackCalls_app, ttyEvents_no_fallback, Hitem;
      auto.
  - intros a. destruct (res (autocd.invoke w (fzfmain.targetDir w item) _ d));
      discriminate.
Qed.

(** With the library, the call of [exit] behind [handleAutoCD] in [main] is
    never reached: when the handoff is attempted, the end of [main] is the
    run of [handleAutoCD]. *)
Lemma finish_hands_over (w : World) (options : fzf.Options) (code : Z)
  (item : string) (err : option error) (d : list string) :
  fzfmain.wantsAutoCD code options item = true ->
  fzfmain.finish w (autocd.ExitWithDirectoryOrFallback w) options code item
                 err d
  = fzfmain.handleAutoCD w (autocd.ExitWithDirectoryOrFallback w) item d.
Proof.
  intros H. unfold fzfmain.finish. rewrite H, run_bind, handleAutoCD_run.
  destruct (res (autocd.invoke w (fzfmain.targetDir w item) _ d));
    reflexivity.
Qed.

(** ** The directory handed to the script generator *)

Lemma validate_dirExists (w : World) (spec : autocd.TargetSpec) level :
  autocd.validate w spec level = inr tt ->
  autocd.dirExists w (autocd.resolvedDir spec) = true.
Proof.
  unfold autocd.validate.
  destruct (autocd.dirExists w (autocd.resolvedDir spec));
    [reflexivity|discriminate].
Qed.

Lemma scriptFor_starts_with_cd (dir : string) (sh : autocd.ShellDescriptor) :
  exists rest, autocd.scriptFor dir sh = Cd dir :: rest.
Proof. unfold autocd.scriptFor. destruct (autocd.scriptDialect sh); eauto. Qed.

(** A script is written only for a target that was resolved and accepted by
    the security policy. *)
Lemma invoke_writes (w : World) (path : string)
  (opts : autocd.HandoffOptions) (d : list string) f body :
  In (WriteFile f body) (out (autocd.invoke w path opts d)) ->
  exists spec sh,
    autocd.resolve w path = inr spec
    /\ autocd.validate w spec (autocd.securityLevel opts) = inr tt
    /\ autocd.detect w (autocd.shellOverride opts) = inr sh
    /\ f = tempFile w
    /\ body = autocd.scriptFor (autocd.resolvedDir spec) sh.
Proof.
  pipeline w path opts; destruct (autocd.debug opts); evaluate;
    intros H; repeat (destruct H as [H|H]; try discriminate H);
    try contradiction; injection H as <- <-;
    exists spec, sh; unfold autocd.scriptFor; rewrite Hdialect; auto.
Qed.

Lemma handleAutoCD_writes (w : World) (item : string) (d : list string) f body :
  In (WriteFile f body)
     (out (fzfmain.handleAutoCD w (autocd.ExitWithDirectoryOrFallback w)
                                item d)) ->
  In (WriteFile f body)
     (out (autocd.invoke w (fzfmain.targetDir w item)
                         (autocd.defaultOptions w) d)).
Proof.
  rewrite handleAutoCD_run.
  destruct (res (autocd.invoke w (fzfmain.targetDir w item) _ d));
    cbn [out]; rewrite !in_app_iff; unfold fzfmain.ttyEvents;
    destruct (ttyDevice w); cbn; intuition discriminate.
Qed.

(** C3, as the code has it: every script written during [handleAutoCD]
    changes into an existing directory, which is never a regular file that
    was selected; for a selected regular file the directory handed to the
    library is its containing directory [filepath.Dir]; and a selected path
    that does not exist is not rejected by [handleAutoCD], which hands its
    parent [filepath.Dir] to the library. *)
Theorem handed_directory_exists (w : World) (item : string) (d : list string) :
  (forall f body,
      In (WriteFile f body)
         (out (fzfmain.handleAutoCD w (autocd.ExitWithDirectoryOrFallback w)
                                    item d)) ->
      exists dir rest,
        body = Cd dir :: rest
        /\ autocd.dirExists w dir = true
        /\ forall info, stat w item = Some info ->
                        os.kind info = Regular -> dir <> item)
  /\ (forall info, stat w item = Some info -> os.kind info = Regular ->
                   fzfmain.targetDir w item = filepath.Dir item)
  /\ (stat w item = None ->
      fzfmain.targetDir w item = filepath.Dir item
      /\ fzfmain.handleAutoCD w (autocd.ExitWithDirectoryOrFallback w) item d
         = bind (match ttyDevice w with
                 | Some ttyin => emit (SetStdin ttyin)
                 | None => ret tt
                 end)
                (fun _ => autocd.ExitWithDirectoryOrFallback
                            w (filepath.Dir item) fzfmain.fallback) d).
Proof.
  repeat split.
  - intros f body H. apply handleAutoCD_writes, invoke_writes in H.
    destruct H as (spec & sh & _ & Hv & _ & _ & ->).
    destruct (scriptFor_starts_with_cd (autocd.resolvedDir spec) sh)
      as [rest ->].
    exists (autocd.resolvedDir spec), rest. repeat split.
    + eapply validate_dirExists; eauto.
    + intros info Hstat Hkind Heq.
      apply validate_dirExists in Hv. unfold autocd.dirExists in Hv.
      rewrite Heq, Hstat in Hv. unfold IsDir in Hv. rewrite Hkind in Hv.
      discriminate.
  - intros info Hstat Hkind.
    apply (targetDir_not_directory w item info Hstat). congruence.
  - unfold fzfmain.targetDir, fzfmain.isDirectory. now rewrite H.
  - unfold fzfmain.handleAutoCD, fzfmain.targetDir, fzfmain.isDirectory.
    now rewrite H.
Qed.

(** ** Debug tracing *)

Lemma invoke_debug_iff (w : World) (path : string)
  (opts : autocd.HandoffOptions) (d : list string) :
  existsb isDebug (out (autocd.invoke w path opts d)) = autocd.debug opts.
Proof.
  pipeline w path opts; destruct (autocd.debug opts); evaluate; reflexivity.
Qed.

Lemma invoke_quiet (w : World) (path : string)
  (opts : autocd.HandoffOptions) (d : list string) :
  autocd.debug opts = false ->
  stderrBytes (out (autocd.invoke w path opts d)) = 0.
Proof.
  intros Hoff. pipeline w path opts; rewrite Hoff; evaluate; reflexivity.
Qed.

(** Debug tracing is strictly additive: without its debug lines a run is the
    run with the flag off. *)
Lemma invoke_debug_additive (w : World) (path : string)
  (opts : autocd.HandoffOptions) (d : list string) :
  res (autocd.invoke w path opts d)
  = res (autocd.invoke w path (autocd.withDebug false opts) d)
  /\ disk (autocd.invoke w path opts d)
     = disk (autocd.invoke w path (autocd.withDebug false opts) d)
  /\ withoutDebug (out (autocd.invoke w path opts d))
     = out (autocd.invoke w path (autocd.withDebug false opts) d).
Proof.
  destruct opts as [level dbg override fb].
  unfold autocd.withDebug, autocd.invoke.
  cbn [autocd.securityLevel autocd.debug autocd.shellOverride].
  stages w path level override; destruct dbg; evaluate; auto.
Qed.

Lemma debug_toggle_env (w : World) :
  autocd.debug (autocd.defaultOptions w) = true
  <-> getenv w "AUTOCD_DEBUG" = Some "1".
Proof.
  cbn. destruct (getenv w "AUTOCD_DEBUG") as [v|].
  - rewrite String.eqb_eq. split; congruence.
  - split; discriminate.
Qed.

Lemma stderrBytes_app (a b : list Event) :
  stderrBytes (a ++ b) = stderrBytes a + stderrBytes b.
Proof.
  induction a as [|e a IH]; [reflexivity|].
  destruct e; cbn; rewrite IH; lia.
Qed.

Lemma ttyEvents_quiet (w : World) :
  stderrBytes (fzfmain.ttyEvents w) = 0 /\ existsb isDebug (fzfmain.ttyEvents w) = false.
Proof. unfold fzfmain.ttyEvents. destruct (ttyDevice w); auto. Qed.

(** C5: the pipeline writes debug lines exactly when the debug flag is set,
    and the flag of the default options is set exactly when the environment
    has [AUTOCD_DEBUG=1].  Tracing is strictly additive: a run without its
    debug lines is the run with the flag off, with the same result and the
    same files.  With the flag off the pipeline writes no byte at all to
    standard error, whichever stage fails; under [handleAutoCD] no debug
    line is written then, and standard error holds nothing on success and
    only the failure message of the fallback when a stage failed. *)
Theorem debug_output_iff_toggle (w : World) (path item : string)
  (opts : autocd.HandoffOptions) (d : list string) :
  existsb isDebug (out (autocd.invoke w path opts d)) = autocd.debug opts
  /\ (res (autocd.invoke w path opts d)
      = res (autocd.invoke w path (autocd.withDebug false opts) d)
      /\ disk (autocd.invoke w path opts d)
         = disk (autocd.invoke w path (autocd.withDebug false opts) d)
      /\ withoutDebug (out (autocd.invoke w path opts d))
         = out (autocd.invoke w path (autocd.withDebug false opts) d))
  /\ (autocd.debug opts = false ->
      stderrBytes (out (autocd.invoke w path opts d)) = 0)
  /\ (autocd.debug (autocd.defaultOptions w) = true
      <-> getenv w "AUTOCD_DEBUG" = Some "1")
  /\ (getenv w "AUTOCD_DEBUG" <> Some "1" ->
      existsb isDebug
        (out (fzfmain.handleAutoCD w (autocd.ExitWithDirectoryOrFallback w)
                                   item d)) = false
      /\ stderrBytes
           (out (fzfmain.handleAutoCD
                   w (autocd.ExitWithDirectoryOrFallback w) item d))
         = match res (autocd.invoke w (fzfmain.targetDir w item)
                                    (autocd.defaultOptions w) d) with
           | Ret _ => String.length fzfmain.failureMessage
           | Halt _ => 0
           end).
Proof.
  split; [apply invoke_debug_iff|].
  split; [apply invoke_debug_additive|].
  split; [apply invoke_quiet|].
  split; [apply debug_toggle_env|].
  intros Hunset.
  assert (Hoff : autocd.debug (autocd.defaultOptions w) = false).
  { destruct (autocd.debug (autocd.defaultOptions w)) eqn:E; [|reflexivity].
    apply debug_toggle_env in E. contradiction. }
  pose proof (invoke_debug_iff w (fzfmain.targetDir w item)
                               (autocd.defaultOptions w) d) as Hdbg.
  pose proof (invoke_quiet w (fzfmain.targetDir w item)
                           (autocd.defaultOptions w) d Hoff) as Hquiet.
  rewrite Hoff in Hdbg.
  destruct (ttyEvents_quiet w) as [Htty Htty'].
  rewrite handleAutoCD_run.
  destruct (res (autocd.invoke w (fzfmain.targetDir w item) _ d));
    cbn [out]; rewrite ?existsb_app, ?stderrBytes_app, Hdbg, Htty, Htty', Hquiet;
    split; reflexivity.
Qed.

(** ** The script artifact after a failing run *)

Lemma resolve_error (w : World) (path : string) e :
  autocd.resolve w path = inl e -> e = autocd.InvalidTarget path.
Proof.
  unfold autocd.resolve.
  destruct (path =? ""); [congruence|].
  destruct (filepath.Abs (Getwd w) path) as [abs|]; [|congruence].
  destruct (stat w abs); [discriminate|congruence].
Qed.

Lemma validate_error (w : World) (spec : autocd.TargetSpec) level e :
  autocd.validate w spec level = inl e ->
  exists p, e = autocd.PermissionDenied p.
Proof.
  unfold autocd.validate.
  destruct (negb (autocd.dirExists w _)); [intros [= <-]; eauto|].
  destruct level; [discriminate| |].
  - destruct (autocd.canEnter w _); [discriminate|intros [= <-]; eauto].
  - destruct (negb (autocd.canEnter w _)); [intros [= <-]; eauto|].
    destruct (negb (autocd.linkAllowed w _)); [intros [= <-]; eauto|].
    destruct (negb (autocd.placementAllowed w));
      [intros [= <-]; eauto|discriminate].
Qed.

Lemma detect_error (w : World) override e :
  autocd.detect w override = inl e ->
  exists s, e = autocd.ShellDetectionFailed s.
Proof.
  unfold autocd.detect. destruct override as [sh|].
  - destruct (autocd.isExecutableFile w _);
      [discriminate|intros [= <-]; eauto].
  - destruct (autocd.configuredShell w) as [p|]; [|intros [= <-]; eauto].
    destruct (autocd.isExecutableFile w p);
      [discriminate|intros [= <-]; eauto].
Qed.

Lemma filter_other_incl (f : string) (d : list string) :
  incl (filter (fun g => negb (g =? f)) d) d.
Proof. apply incl_filter. Qed.

Lemma filter_other_fresh (f : string) (d : list string) :
  ~ In f d -> filter (fun g => negb (g =? f)) d = d.
Proof.
  induction d as [|g d IH]; [reflexivity|]. cbn. intros H.
  destruct (String.eqb_spec g f) as [->|_]; cbn.
  - exfalso. apply H. now left.
  - rewrite IH; [reflexivity|]. intros Hin. apply H. now right.
Qed.

Lemma filter_other_absent (f : string) (d : list string) :
  ~ In f (filter (fun g => negb (g =? f)) d).
Proof.
  intros H. apply filter_In in H. destruct H as [_ H].
  now rewrite String.eqb_refl in H.
Qed.

Lemma invoke_disk_incl (w : World) (path : string)
  (opts : autocd.HandoffOptions) (d : list string) :
  match res (autocd.invoke w path opts d) with
  | Ret _ => incl (disk (autocd.invoke w path opts d)) d
  | Halt _ => True
  end.
Proof.
  pipeline w path opts; destruct (autocd.debug opts); evaluate;
    try exact I; try apply incl_refl;
    (eapply incl_tran; apply filter_other_incl).
Qed.

Lemma invoke_disk_fresh (w : World) (path : string)
  (opts : autocd.HandoffOptions) (d : list string) :
  ~ In (tempFile w) d ->
  match res (autocd.invoke w path opts d) with
  | Ret _ => disk (autocd.invoke w path opts d) = d
  | Halt _ => True
  end.
Proof.
  intros Hfresh.
  pipeline w path opts; destruct (autocd.debug opts); evaluate;
    try exact I; try reflexivity;
    now rewrite 2!(filter_other_fresh _ d Hfresh).
Qed.

Lemma invoke_written_iff (w : World) (path : string)
  (opts : autocd.HandoffOptions) (d : list string) :
  match res (autocd.invoke w path opts d) with
  | Ret e =>
      existsb isWriteFile (out (autocd.invoke w path opts d)) = true
      <-> ((exists n, e = autocd.ExecFailed n)
           \/ e = autocd.UnsupportedPlatform)
  | Halt _ => True
  end.
Proof.
  pipeline w path opts;
    [apply resolve_error in Hresolve
    |apply validate_error in Hvalidate; destruct Hvalidate as [p Hvalidate]
    |apply detect_error in Hdetect; destruct Hdetect as [s Hdetect]
    |..];
    subst; destruct (autocd.debug opts); evaluate; try exact I;
    split; eauto; intros H; try discriminate H;
    destruct H as [[n H]|H]; discriminate H.
Qed.

Lemma invoke_written_removed (w : World) (path : string)
  (opts : autocd.HandoffOptions) (d : list string) :
  match res (autocd.invoke w path opts d) with
  | Ret _ =>
      existsb isWriteFile (out (autocd.invoke w path opts d)) = true ->
      last (out (autocd.invoke w path opts d)) FallbackCalled
      = Remove (tempFile w)
      /\ ~ In (tempFile w) (disk (autocd.invoke w path opts d))
  | Halt _ => True
  end.
Proof.
  pipeline w path opts; destruct (autocd.debug opts); evaluate;
    try exact I; intros H; try discriminate H;
    (split; [reflexivity|apply filter_other_absent]).
Qed.

(** C6: when the handoff returns an error, no file is on disk that was not
    there before, so a temporary directory that was empty is empty again;
    a script was written during such a run exactly when the error is
    ExecFailed or UnsupportedPlatform, and then the last thing the
    controller did before returning was to remove the artifact, which is
    no longer on disk. *)
Theorem failing_run_leaves_no_artifact (w : World) (path : string)
  (opts : autocd.HandoffOptions) (d : list string) :
  match res (autocd.invoke w path opts d) with
  | Ret e =>
      incl (disk (autocd.invoke w path opts d)) d
      /\ (~ In (tempFile w) d -> disk (autocd.invoke w path opts d) = d)
      /\ (d = [] -> disk (autocd.invoke w path opts d) = [])
      /\ (existsb isWriteFile (out (autocd.invoke w path opts d)) = true
          <-> ((exists n, e = autocd.ExecFailed n)
               \/ e = autocd.UnsupportedPlatform))
      /\ (existsb isWriteFile (out (autocd.invoke w path opts d)) = true ->
          last (out (autocd.invoke w path opts d)) FallbackCalled
          = Remove (tempFile w)
          /\ ~ In (tempFile w) (disk (autocd.invoke w path opts d)))
  | Halt _ => True
  end.
Proof.
  pose proof (invoke_disk_incl w path opts d) as H1.
  pose proof (invoke_disk_fresh w path opts d) as H2.
  pose proof (invoke_written_iff w path opts d) as H3.
  pose proof (invoke_written_removed w path opts d) as H4.
  destruct (res (autocd.invoke w path opts d)) as [e|t]; [|exact I].
  repeat split; auto; try apply H3.
  - intros ->. apply H2. intros [].
  - now apply H4.
  - now apply H4.
Qed.

(** ** The confirmation line of the script *)

Lemma resolve_absolute (w : World) (path : string) (spec : autocd.TargetSpec) :
  (forall wd, cwd w = Some wd -> filepath.IsAbs wd = true) ->
  autocd.resolve w path = inr spec ->
  filepath.IsAbs (autocd.resolvedDir spec) = true.
Proof.
  intros Hwd. unfold autocd.resolve.
  destruct (path =? ""); [discriminate|].
  destruct (filepath.Abs (Getwd w) path) as [abs|] eqn:A; [|discriminate].
  apply (Abs_IsAbs _ _ _ Hwd) in A.
  destruct (stat w abs) as [info|]; [|discriminate].
  intros [= <-]. cbn. destruct (IsDir info); [exact A|].
  now apply Dir_IsAbs.
Qed.

Lemma invoke_confirms (w : World) (path : string)
  (opts : autocd.HandoffOptions) (d : list string) :
  match res (autocd.invoke w path opts d) with
  | Halt _ =>
      exists spec sh,
        autocd.resolve w path = inr spec
        /\ autocd.validate w spec (autocd.securityLevel opts) = inr tt
        /\ autocd.detect w (autocd.shellOverride opts) = inr sh
        /\ stdoutOf (out (autocd.invoke w path opts d))
           = [(autocd.confirmation (autocd.resolvedDir spec) ++ LF)%string]
        /\ stdoutOf (beforeShell (out (autocd.invoke w path opts d)))
           = [(autocd.confirmation (autocd.resolvedDir spec) ++ LF)%string]
        /\ In (Shell (autocd.executablePath sh) (autocd.resolvedDir spec))
              (out (autocd.invoke w path opts d))
  | Ret _ => stdoutOf (out (autocd.invoke w path opts d)) = []
  end.
Proof.
  pipeline w path opts; destruct (autocd.debug opts); evaluate;
    try reflexivity;
    exists spec, sh; repeat split; auto;
    cbn; repeat ((left; reflexivity) || right).
Qed.

(** C7: a handoff that succeeds writes exactly one line to standard output,
    [Directory changed to: ] followed by the resolved directory, which is
    an absolute path (the working directory being one) of an existing
    directory; the line is written before the shell takes over, in that
    directory.  A handoff that returns an error writes nothing to standard
    output. *)
Theorem confirmation_line_on_success (w : World) (path : string)
  (opts : autocd.HandoffOptions) (d : list string)
  (Hwd : forall wd, cwd w = Some wd -> filepath.IsAbs wd = true) :
  match res (autocd.invoke w path opts d) with
  | Halt _ =>
      exists spec sh,
        autocd.resolve w path = inr spec
        /\ autocd.detect w (autocd.shellOverride opts) = inr sh
        /\ filepath.IsAbs (autocd.resolvedDir spec) = true
        /\ autocd.dirExists w (autocd.resolvedDir spec) = true
        /\ stdoutOf (out (autocd.invoke w path opts d))
           = [("Directory changed to: " ++ autocd.resolvedDir spec ++ LF)
              %string]
        /\ stdoutOf (beforeShell (out (autocd.invoke w path opts d)))
           = [("Directory changed to: " ++ autocd.resolvedDir spec ++ LF)
              %string]
        /\ In (Shell (autocd.executablePath sh) (autocd.resolvedDir spec))
              (out (autocd.invoke w path opts d))
  | Ret _ => stdoutOf (out (autocd.invoke w path opts d)) = []
  end.
Proof.
  pose proof (invoke_confirms w path opts d) as H.
  destruct (res (autocd.invoke w path opts d)); [exact H|].
  destruct H as (spec & sh & Hr & Hv & Hd & Hout & Hbefore & Hshell).
  exists spec, sh. repeat split; auto.
  - eapply resolve_absolute; eauto.
  - eapply validate_dirExists; eauto.
Qed.

(** ** The scenarios of the specification, run *)

Example Dir_of_file :
  filepath.Dir "/home/user/projects/readme.md" = "/home/user/projects"
  /\ filepath.Dir "Users/sam/Desktop/Notes/tasks.md"
     = "Users/sam/Desktop/Notes"
  /\ filepath.Dir "readme.md" = "."
  /\ filepath.Dir "/readme.md" = "/"
  /\ filepath.Dir "a/b/../c/" = "a/c".
Proof. repeat split. Qed.

Example TrimSpace_of_script :
  strings.TrimSpace
    (String "009" (String "194" (String "160" "echo a b")) ++ " " ++ LF)
  = "echo a b".
Proof. reflexivity. Qed.

(** An existing directory: the process becomes the shell, running in that
    directory. *)
Example handoff_to_directory :
  fzfmain.handleAutoCD Scenario.posix
    (autocd.ExitWithDirectoryOrFallback Scenario.posix)
    "/home/user/projects" []
  = mkRun (Halt Replaced)
      [SetStdin "/dev/tty";
       WriteFile "/tmp/autocd/handoff.sh"
         [Cd "/home/user/projects";
          Echo "Directory changed to: /home/user/projects";
          ExecShell "/bin/zsh"];
       Exec "/bin/sh" "/tmp/autocd/handoff.sh";
       Chdir "/home/user/projects";
       Stdout ("Directory changed to: /home/user/projects" ++ LF);
       Shell "/bin/zsh" "/home/user/projects"]
      ["/tmp/autocd/handoff.sh"].
Proof. reflexivity. Qed.

(** A path that does not exist and whose parent does not exist either: the
    fallback runs and the process exits with code 0. *)
Example handoff_to_missing_path :
  autocd.resolve Scenario.posix "/does/not/exist"
  = inl (autocd.InvalidTarget "/does/not/exist")
  /\ fzfmain.handleAutoCD Scenario.posix
       (autocd.ExitWithDirectoryOrFallback Scenario.posix)
       "/does/not/exist" []
     = mkRun (Halt (Exited 0))
         [SetStdin "/dev/tty"; FallbackCalled;
          Stderr ("fzf: autocd failed, falling back to normal exit" ++ LF)]
         [].
Proof. split; reflexivity. Qed.

(** A failure at each later stage: no shell, no writable temporary
    directory, a failing replacement primitive. *)
Example handoff_stage_failures :
  res (autocd.invoke Scenario.noShell "/tmp"
         (autocd.defaultOptions Scenario.noShell) [])
  = Ret (autocd.ShellDetectionFailed "")
  /\ res (autocd.invoke Scenario.readOnlyTemp "/tmp"
            (autocd.defaultOptions Scenario.readOnlyTemp) [])
     = Ret (autocd.ScriptGenerationFailed "/tmp/autocd/handoff.sh")
  /\ autocd.invoke Scenario.brokenExec "/tmp"
       (autocd.defaultOptions Scenario.brokenExec) []
     = mkRun (Ret (autocd.ExecFailed 8))
         [WriteFile "/tmp/autocd/handoff.sh"
            [Cd "/tmp"; Echo "Directory changed to: /tmp";
             ExecShell "/bin/zsh"];
          Remove "/tmp/autocd/handoff.sh"]
         []
  /\ autocd.invoke Scenario.unsupported "/tmp"
       (autocd.defaultOptions Scenario.unsupported) []
     = mkRun (Ret autocd.UnsupportedPlatform)
         [WriteFile "/tmp/autocd/handoff.sh"
            [Cd "/tmp"; Echo "Directory changed to: /tmp";
             ExecShell "/bin/zsh"];
          Remove "/tmp/autocd/handoff.sh"]
         []
  /\ fzfmain.handleAutoCD Scenario.brokenExec
       (autocd.ExitWithDirectoryOrFallback Scenario.brokenExec) "/tmp" []
     = mkRun (Halt (Exited 0))
         [SetStdin "/dev/tty";
          WriteFile "/tmp/autocd/handoff.sh"
            [Cd "/tmp"; Echo "Directory changed to: /tmp";
             ExecShell "/bin/zsh"];
          Remove "/tmp/autocd/handoff.sh";
          FallbackCalled;
          Stderr ("fzf: autocd failed, falling back to normal exit" ++ LF)]
         [].
Proof. repeat split. Qed.

(** Without process replacement the host exits with the child's code. *)
Example handoff_by_spawning :
  exitStatus (autocd.invoke Scenario.spawning "/home/user/projects"
                (autocd.defaultOptions Scenario.spawning) [])
  = Some 3%Z.
Proof. reflexivity. Qed.

(** With [AUTOCD_DEBUG=1] every stage writes its line. *)
Example handoff_traced :
  out (autocd.invoke Scenario.tracing "/tmp"
         (autocd.defaultOptions Scenario.tracing) [])
  = [Debug "resolve" "/tmp"; Debug "security" "accepted";
     Debug "shell" "/bin/zsh";
     WriteFile "/tmp/autocd/handoff.sh"
       [Cd "/tmp"; Echo "Directory changed to: /tmp"; ExecShell "/bin/zsh"];
     Debug "script" "/tmp/autocd/handoff.sh"; Debug "execute" "/bin/sh";
     Exec "/bin/sh" "/tmp/autocd/handoff.sh"; Chdir "/tmp";
     Stdout ("Directory changed to: /tmp" ++ LF); Shell "/bin/zsh" "/tmp"].
Proof. reflexivity. Qed.

(** The transcript of the bug report: started in [/], the file
    [Users/sam/Desktop/Notes/tasks.md] selected. *)
Example handoff_of_the_report :
  stdoutOf (out (fzfmain.handleAutoCD Scenario.report
                   (autocd.ExitWithDirectoryOrFallback Scenario.report)
                   "Users/sam/Desktop/Notes/tasks.md" []))
  = [("Directory changed to: /Users/sam/Desktop/Notes" ++ LF)%string].
Proof. reflexivity. Qed.

(** The reproduction program on a missing directory and without argument. *)
Example reproduction_runs :
  repro.main Scenario.posix _ (autocd.ExitWithDirectory Scenario.posix)
             autocd.describe ["repro"; "/nope"] []
  = mkRun (Halt (Exited 1))
      [Stdout ("Current directory: /" ++ LF);
       Stdout ("Target directory: /nope" ++ LF);
       Stdout ("About to call ExitWithDirectory()..." ++ LF);
       Stdout ("Error: invalid target: /nope" ++ LF)]
      []
  /\ repro.main Scenario.posix _ (autocd.ExitWithDirectory Scenario.posix)
                autocd.describe ["repro"] []
     = mkRun (Halt (Exited 1))
         [Stderr ("Usage: repro <directory>" ++ LF);
          Stderr ("Example: repro /tmp" ++ LF)]
         [].
Proof. split; reflexivity. Qed.

(** The whole of [main], with a selector that returns a fixed selection. *)
Example main_runs :
  exitStatus
    (fzfmain.main Scenario.posix Scenario.parse
       (Scenario.selects fzf.ExitOk "/home/user/projects/readme.md")
       "usage" (fun _ _ => ret "") (fun _ => ret None) (ret tt)
       "" "" "" "" "" ""
       (autocd.ExitWithDirectoryOrFallback Scenario.posix)
       ["fzf"; "--autocd"] [])
  = None
  /\ exitStatus
       (fzfmain.main Scenario.posix Scenario.parse
          (Scenario.selects fzf.ExitInterrupt "")
          "usage" (fun _ _ => ret "") (fun _ => ret None) (ret tt)
          "" "" "" "" "" ""
          (autocd.ExitWithDirectoryOrFallback Scenario.posix)
          ["fzf"; "--autocd"] [])
     = Some 130%Z
  /\ out (fzfmain.main Scenario.posix Scenario.parse
            (Scenario.selects fzf.ExitOk "")
            "usage" (fun _ _ => ret "") (fun _ => ret None) (ret tt)
            "" "" "" "" "" ""
            (autocd.ExitWithDirectoryOrFallback Scenario.posix)
            ["fzf"; "--help"] [])
     = [Stdout "usage"].
Proof. repeat split. Qed.

(** ** The theorems at concrete inputs *)

(** A selected path that does not exist but whose parent does is not
    rejected: [handleAutoCD] hands the parent [/tmp] on, the pipeline does
    not fail with InvalidTarget, the script changes into [/tmp] and the
    process is replaced without the fallback being entered. *)
Lemma missing_path_is_handed_on :
  stat Scenario.posix "/tmp/ghost" = None
  /\ fzfmain.targetDir Scenario.posix "/tmp/ghost" = "/tmp"
  /\ (forall p,
        res (autocd.invoke Scenario.posix
               (fzfmain.targetDir Scenario.posix "/tmp/ghost")
               (autocd.defaultOptions Scenario.posix) [])
        <> Ret (autocd.InvalidTarget p))
  /\ fzfmain.handleAutoCD Scenario.posix
       (autocd.ExitWithDirectoryOrFallback Scenario.posix) "/tmp/ghost" []
     = mkRun (Halt Replaced)
         [SetStdin "/dev/tty";
          WriteFile "/tmp/autocd/handoff.sh"
            [Cd "/tmp"; Echo "Directory changed to: /tmp";
             ExecShell "/bin/zsh"];
          Exec "/bin/sh" "/tmp/autocd/handoff.sh";
          Chdir "/tmp";
          Stdout ("Directory changed to: /tmp" ++ LF);
          Shell "/bin/zsh" "/tmp"]
         ["/tmp/autocd/handoff.sh"].
Proof.
  repeat split. intros p. cbn. discriminate.
Qed.

Lemma handoff_returns_only_on_failure_witness :
  stat Scenario.posix (filepath.rooted ["home"; "user"; "projects"])
  = Some Scenario.dir
  /\ res (autocd.invoke Scenario.posix
            (filepath.rooted ["home"; "user"; "projects"])
            (autocd.defaultOptions Scenario.posix) []) = Halt Replaced
  /\ res (autocd.invoke Scenario.spawning
            (filepath.rooted ["home"; "user"; "projects"])
            (autocd.defaultOptions Scenario.spawning) [])
     = Halt (Exited 3).
Proof.
  assert (Hlevel : autocd.Normal <> autocd.Strict) by discriminate.
  split; [reflexivity|]. split.
  - exact (proj1 (proj1 (proj2 (proj2 (proj2
      (handoff_returns_only_on_failure Scenario.posix "/"
         (autocd.defaultOptions Scenario.posix) []))))
      ["home"; "user"; "projects"] Scenario.dir "/bin/zsh"
      eq_refl eq_refl eq_refl eq_refl eq_refl Hlevel eq_refl eq_refl eq_refl
      eq_refl eq_refl) eq_refl).
  - exact (proj2 (proj1 (proj2 (proj2 (proj2
      (handoff_returns_only_on_failure Scenario.spawning "/"
         (autocd.defaultOptions Scenario.spawning) []))))
      ["home"; "user"; "projects"] Scenario.dir "/bin/zsh"
      eq_refl eq_refl eq_refl eq_refl eq_refl Hlevel eq_refl eq_refl eq_refl
      eq_refl eq_refl) eq_refl).
Defined.

Lemma fallback_once_then_exit_witness :
  res (fzfmain.handleAutoCD Scenario.posix
         (autocd.ExitWithDirectoryOrFallback Scenario.posix)
         "/does/not/exist" []) = Halt (Exited 0)
  /\ fallbackCalls
       (out (fzfmain.handleAutoCD Scenario.posix
               (autocd.ExitWithDirectoryOrFallback Scenario.posix)
               "/does/not/exist" [])) = 1.
Proof.
  exact (proj1 (proj2 (proj2
    (fallback_once_then_exit Scenario.posix "/does/not/exist"
       "/does/not/exist" (autocd.defaultOptions Scenario.posix)
       fzfmain.fallback [])))).
Defined.

Lemma handed_directory_exists_witness :
  stat Scenario.posix "/home/user/projects/readme.md" = Some Scenario.file
  /\ os.kind Scenario.file = Regular
  /\ fzfmain.targetDir Scenario.posix "/home/user/projects/readme.md"
     = filepath.Dir "/home/user/projects/readme.md"
  /\ exists dir rest,
       [Cd "/home/user/projects";
        Echo "Directory changed to: /home/user/projects";
        ExecShell "/bin/zsh"] = Cd dir :: rest
       /\ autocd.dirExists Scenario.posix dir = true
       /\ forall info,
            stat Scenario.posix "/home/user/projects/readme.md" = Some info ->
            os.kind info = Regular ->
            dir <> "/home/user/projects/readme.md".
Proof.
  pose proof (handed_directory_exists Scenario.posix
                "/home/user/projects/readme.md" []) as (Hwritten & Hfile & _).
  split; [reflexivity|]. split; [reflexivity|].
  split; [exact (Hfile Scenario.file eq_refl eq_refl)|].
  apply (Hwritten "/tmp/autocd/handoff.sh").
  cbn. right. left. reflexivity.
Defined.

Lemma targetDir_resolution_witness :
  stat Scenario.posix "/home/user/projects/readme.md" = Some Scenario.file
  /\ stat Scenario.posix "/home/user/projects" = Some Scenario.dir
  /\ fzfmain.targetDir Scenario.posix "/home/user/projects/readme.md"
     = "/home/user/projects"
  /\ fzfmain.targetDir Scenario.posix "/home/user/projects"
     = "/home/user/projects".
Proof.
  split; [reflexivity|]. split; [reflexivity|]. split.
  - exact (proj1 (proj1 (proj2
      (targetDir_resolution Scenario.posix "/home/user/projects/readme.md"
         Scenario.file eq_refl)) eq_refl)).
  - exact (proj1
      (targetDir_resolution Scenario.posix "/home/user/projects"
         Scenario.dir eq_refl) eq_refl).
Defined.

Lemma debug_output_iff_toggle_witness :
  getenv Scenario.posix "AUTOCD_DEBUG" <> Some "1"
  /\ stderrBytes
       (out (fzfmain.handleAutoCD Scenario.posix
               (autocd.ExitWithDirectoryOrFallback Scenario.posix)
               "/home/user/projects" [])) = 0
  /\ stderrBytes
       (out (fzfmain.handleAutoCD Scenario.posix
               (autocd.ExitWithDirectoryOrFallback Scenario.posix)
               "/does/not/exist" [])) = 48.
Proof.
  assert (Hunset : getenv Scenario.posix "AUTOCD_DEBUG" <> Some "1")
    by discriminate.
  split; [exact Hunset|]. split.
  - exact (proj2 (proj2 (proj2 (proj2 (proj2
      (debug_output_iff_toggle Scenario.posix "/tmp" "/home/user/projects"
         (autocd.defaultOptions Scenario.posix) [])))) Hunset)).
  - exact (proj2 (proj2 (proj2 (proj2 (proj2
      (debug_output_iff_toggle Scenario.posix "/tmp" "/does/not/exist"
         (autocd.defaultOptions Scenario.posix) [])))) Hunset)).
Defined.

Lemma failing_run_leaves_no_artifact_witness :
  res (autocd.invoke Scenario.brokenExec "/tmp"
         (autocd.defaultOptions Scenario.brokenExec) [])
  = Ret (autocd.ExecFailed 8)
  /\ disk (autocd.invoke Scenario.brokenExec "/tmp"
             (autocd.defaultOptions Scenario.brokenExec) []) = []
  /\ last (out (autocd.invoke Scenario.brokenExec "/tmp"
                  (autocd.defaultOptions Scenario.brokenExec) []))
          FallbackCalled
     = Remove "/tmp/autocd/handoff.sh".
Proof.
  pose proof (failing_run_leaves_no_artifact Scenario.brokenExec "/tmp"
                (autocd.defaultOptions Scenario.brokenExec) []) as H.
  change (res (autocd.invoke Scenario.brokenExec "/tmp"
                 (autocd.defaultOptions Scenario.brokenExec) []))
    with (@Ret autocd.HandoffError (autocd.ExecFailed 8)) in H.
  destruct H as (_ & _ & Hempty & _ & Hremoved).
  split; [reflexivity|]. split; [exact (Hempty eq_refl)|].
  exact (proj1 (Hremoved eq_refl)).
Defined.

Lemma confirmation_line_on_success_witness :
  (forall wd, cwd Scenario.report = Some wd -> filepath.IsAbs wd = true)
  /\ exists spec sh,
       autocd.resolve Scenario.report "Users/sam/Desktop/Notes" = inr spec
       /\ autocd.detect Scenario.report None = inr sh
       /\ filepath.IsAbs (autocd.resolvedDir spec) = true
       /\ autocd.dirExists Scenario.report (autocd.resolvedDir spec) = true
       /\ stdoutOf (out (autocd.invoke Scenario.report
                           "Users/sam/Desktop/Notes"
                           (autocd.defaultOptions Scenario.report) []))
          = [("Directory changed to: " ++ autocd.resolvedDir spec ++ LF)
             %string]
       /\ stdoutOf (beforeShell
                      (out (autocd.invoke Scenario.report
                              "Users/sam/Desktop/Notes"
                              (autocd.defaultOptions Scenario.report) [])))
          = [("Directory changed to: " ++ autocd.resolvedDir spec ++ LF)
             %string]
       /\ In (Shell (autocd.executablePath sh) (autocd.resolvedDir spec))
             (out (autocd.invoke Scenario.report "Users/sam/Desktop/Notes"
                     (autocd.defaultOptions Scenario.report) [])).
Proof.
  assert (Hwd : forall wd, cwd Scenario.report = Some wd ->
                           filepath.IsAbs wd = true).
  { intros wd [= <-]. reflexivity. }
  split; [exact Hwd|].
  exact (confirmation_line_on_success Scenario.report
           "Users/sam/Desktop/Notes"
           (autocd.defaultOptions Scenario.report) [] Hwd).
Defined.

Lemma handoff_attempted_iff_witness :
  ~ (fzf.ExitInterrupt = fzf.ExitOk
     /\ fzf.AutoCD (fst (Scenario.parse true ["--autocd"])) = true
     /\ "/tmp" <> "")
  /\ res (fzfmain.finish Scenario.posix
            (autocd.ExitWithDirectoryOrFallback Scenario.posix)
            (fst (Scenario.parse true ["--autocd"]))
            fzf.ExitInterrupt "/tmp" None [])
     = Halt (Exited fzf.ExitInterrupt)
  /\ (fzf.ExitOk = fzf.ExitOk
      /\ fzf.AutoCD (fst (Scenario.parse true ["--autocd"])) = true
      /\ "/tmp" <> "")
  /\ fzfmain.finish Scenario.posix
       (autocd.ExitWithDirectoryOrFallback Scenario.posix)
       (fst (Scenario.parse true ["--autocd"])) fzf.ExitOk "/tmp" None []
     = bind (fzfmain.handleAutoCD Scenario.posix
               (autocd.ExitWithDirectoryOrFallback Scenario.posix) "/tmp")
            (fun _ => fzfmain.exit fzf.ExitOk None) [].
Proof.
  assert (Hno : ~ (fzf.ExitInterrupt = fzf.ExitOk
                   /\ fzf.AutoCD (fst (Scenario.parse true ["--autocd"]))
                      = true
                   /\ "/tmp" <> "")).
  { intros [H _]. discriminate H. }
  assert (Hyes : fzf.ExitOk = fzf.ExitOk
                 /\ fzf.AutoCD (fst (Scenario.parse true ["--autocd"])) = true
                 /\ "/tmp" <> "").
  { repeat split. discriminate. }
  split; [exact Hno|]. split.
  - exact (proj1 (proj2 (proj2
      (handoff_attempted_iff Scenario.posix
         (autocd.ExitWithDirectoryOrFallback Scenario.posix)
         (fst (Scenario.parse true ["--autocd"]))
         fzf.ExitInterrupt "/tmp" None []) Hno))).
  - split; [exact Hyes|].
    exact (proj1
      (handoff_attempted_iff Scenario.posix
         (autocd.ExitWithDirectoryOrFallback Scenario.posix)
         (fst (Scenario.parse true ["--autocd"]))
         fzf.ExitOk "/tmp" None []) Hyes).
Defined.

(** * Further properties of the sources *)

(** ** [exit] *)

(** X1: [exit] never returns, and nothing that follows it runs; it ends the
    process with the code it is given and touches no file.  It writes to
    standard error exactly when the code is [ExitError] and the error is
    not [nil], and then the text of the error and a newline; an error that
    comes with any other code is dropped. *)
Theorem exit_reports_only_errors (code : Z) (err : option error)
  (k : unit -> M unit) (d : list string) :
  res (fzfmain.exit code err d) = Halt (Exited code)
  /\ disk (fzfmain.exit code err d) = d
  /\ bind (fzfmain.exit code err) k d = fzfmain.exit code err d
  /\ (out (fzfmain.exit code err d) <> []
      <-> code = fzf.ExitError /\ err <> None)
  /\ (forall e, err = Some e -> code = fzf.ExitError ->
                out (fzfmain.exit code err d) = [Stderr (Error e ++ LF)]).
Proof.
  unfold fzfmain.exit.
  destruct err as [e|]; [destruct (Z.eqb_spec code fzf.ExitError) as [->|N]|];
    cbn; (split; [reflexivity|]); (split; [reflexivity|]);
    (split; [reflexivity|]); split.
  - split; [intros _; split; [reflexivity|discriminate]|discriminate].
  - intros e' [= <-] _. reflexivity.
  - split; [intros H; now contradiction H|intros [H _]; contradiction].
  - intros e' _ H. contradiction.
  - split; [intros H; now contradiction H|intros [_ H]; now contradiction H].
  - intros e H. discriminate.
Qed.

(** ** [main] before the selector *)

Section BeforeTheSelector.

Variable w : World.
Variable ParseOptions : bool -> list string -> fzf.Options * option error.
Variable Usage : string.
Variable WriteTemporaryFile : list string -> string -> M string.
Variable runMan : string -> M (option error).
Variable Protect : M unit.
Variables bashKeyBindings bashCompletion zshKeyBindings zshCompletion
  fishKeyBindings manPage : string.

Local Abbreviation fzfProgram Run lib :=
  (fzfmain.main w ParseOptions Run Usage WriteTemporaryFile runMan Protect
                bashKeyBindings bashCompletion zshKeyBindings zshCompletion
                fishKeyBindings manPage lib).

(** X2: a command line that does not parse ends the process with exit code
    [ExitError] (2), with the parser's message and a newline on standard
    error as the only thing written after the start-up protection; no file
    is touched, and neither the selector nor the handoff library has any
    part in the run. *)
Theorem parse_error_exits_with_code_2
  (Run : fzf.Options -> M (Z * string * option error))
  (lib : string -> M unit -> M unit)
  (prog : string) (arguments : list string) (options : fzf.Options)
  (e : error) (d : list string) :
  ParseOptions true arguments = (options, Some e) ->
  res (Protect d) = Ret tt ->
  fzfProgram Run lib (prog :: arguments) d
  = mkRun (Halt (Exited 2))
          (out (Protect d) ++ [Stderr (Error e ++ LF)])
          (disk (Protect d)).
Proof.
  intros Hparse HP. unfold fzfmain.main.
  rewrite run_bind, HP, Hparse. reflexivity.
Qed.

(** X3: when the command line asks for the bash, zsh or fish scripts, the
    help text or the version, [main] only prints: after the start-up
    protection every event is a write to standard output, no file is
    touched, and [main] returns, so the exit status is 0.  The selector and
    the handoff library have no part in the run, whatever else the command
    line asks for (even [--autocd] or [--man]). *)
Theorem informational_actions_only_print
  (Run Run' : fzf.Options -> M (Z * string * option error))
  (lib lib' : string -> M unit -> M unit)
  (prog : string) (arguments : list string) (options : fzf.Options)
  (d : list string) :
  ParseOptions true arguments = (options, None) ->
  fzf.Bash options || fzf.Zsh options || fzf.Fish options
  || fzf.Help options || fzf.Version options = true ->
  res (Protect d) = Ret tt ->
  (exists evs,
      fzfProgram Run lib (prog :: arguments) d
      = mkRun (Ret tt) (out (Protect d) ++ evs) (disk (Protect d))
      /\ evs <> []
      /\ forallb Cases.isStdout evs = true)
  /\ exitStatus (fzfProgram Run lib (prog :: arguments) d) = Some 0%Z
  /\ fzfProgram Run lib (prog :: arguments) d
     = fzfProgram Run' lib' (prog :: arguments) d.
Proof.
  intros Hparse Hflag HP. unfold fzfmain.main, exitStatus.
  rewrite !run_bind, HP, Hparse.
  destruct (fzf.Bash options);
    [|destruct (fzf.Zsh options);
      [|destruct (fzf.Fish options);
        [|destruct (fzf.Help options);
          [|destruct (fzf.Version options); [|discriminate Hflag]]]]];
    (split; [eexists; split; [reflexivity|split; [discriminate|reflexivity]]
            |split; reflexivity]).
Qed.

Lemma length_zero (s : string) :
  (String.length s =? 0)%nat = (s =? "").
Proof. destruct s; reflexivity. Qed.

(** X4: when the command line asks for the manual page, the temporary file
    written for the [man] command is removed before [main] returns,
    whether [man] succeeded or failed: removing it is the last event and
    the file is not on disk afterwards.  The page itself is printed on
    standard output exactly when no temporary file could be written or
    [man] failed, and [main] returns (exit status 0) in every case. *)
Theorem man_page_temp_file_removed
  (Run : fzf.Options -> M (Z * string * option error))
  (lib : string -> M unit -> M unit)
  (prog : string) (arguments : list string) (options : fzf.Options)
  (d d1 d2 : list string) (o1 o2 : list Event) (file : string)
  (failed : option error) :
  ParseOptions true arguments = (options, None) ->
  fzf.Bash options || fzf.Zsh options || fzf.Fish options
  || fzf.Help options || fzf.Version options = false ->
  fzf.Man options = true ->
  res (Protect d) = Ret tt ->
  WriteTemporaryFile [manPage] LF (disk (Protect d)) = mkRun (Ret file) o1 d1 ->
  runMan file d1 = mkRun (Ret failed) o2 d2 ->
  (file = "" ->
   fzfProgram Run lib (prog :: arguments) d
   = mkRun (Ret tt) (out (Protect d) ++ o1 ++ [Stdout manPage]) d1)
  /\ (file <> "" ->
      fzfProgram Run lib (prog :: arguments) d
      = mkRun (Ret tt)
              (out (Protect d) ++ o1 ++ o2
               ++ match failed with
                  | Some _ => [Stdout manPage]
                  | None => []
                  end
               ++ [Remove file])
              (filter (fun f => negb (f =? file)) d2)
      /\ ~ In file (disk (fzfProgram Run lib (prog :: arguments) d))).
Proof.
  intros Hparse Hflag Hman HP Htemp Hrun.
  repeat (apply orb_false_iff in Hflag; destruct Hflag as [Hflag ?]).
  assert (E : fzfProgram Run lib (prog :: arguments) d
              = if file =? ""
                then mkRun (Ret tt) (out (Protect d) ++ o1 ++ [Stdout manPage])
                           d1
                else mkRun (Ret tt)
                       (out (Protect d) ++ o1 ++ o2
                        ++ match failed with
                           | Some _ => [Stdout manPage]
                           | None => []
                           end
                        ++ [Remove file])
                       (filter (fun f => negb (f =? file)) d2)).
  { unfold fzfmain.main.
    rewrite run_bind, HP, Hparse.
    repeat match goal with H : fzf.Bash _ = false |- _ => rewrite H
                      | H : fzf.Zsh _ = false |- _ => rewrite H
                      | H : fzf.Fish _ = false |- _ => rewrite H
                      | H : fzf.Help _ = false |- _ => rewrite H
                      | H : fzf.Version _ = false |- _ => rewrite H end.
    rewrite Hman, run_bind, Htemp. cbn [res out disk].
    rewrite length_zero. destruct (file =? ""); [reflexivity|].
    rewrite !run_bind, Hrun. cbn [res out disk].
    destruct failed; cbn; rewrite ?app_nil_r; reflexivity. }
  split; intros Hfile.
  - rewrite E. subst file. reflexivity.
  - apply String.eqb_neq in Hfile. rewrite E, Hfile. split; [reflexivity|].
    cbn [disk]. apply filter_other_absent.
Qed.

End BeforeTheSelector.

(** ** [main] after the selector *)

(** X5: the end of [main] never returns, for any handoff library.  When the
    handoff is attempted and the call of the library returns, as the
    comment in [main] expects of a failed handoff, [main] falls back to
    the normal exit: the process ends with [ExitOk], the code the selector
    returned, and [exit] writes nothing, whatever error the selector
    returned with it. *)
Theorem returning_handoff_falls_back_to_exit
  (w : World) (lib : string -> M unit -> M unit) (options : fzf.Options)
  (code : Z) (item : string) (err : option error) (d : list string) :
  (forall a, res (fzfmain.finish w lib options code item err d) <> Ret a)
  /\ (fzfmain.wantsAutoCD code options item = true ->
      res (fzfmain.handleAutoCD w lib item d) = Ret tt ->
      fzfmain.finish w lib options code item err d
      = mkRun (Halt (Exited fzf.ExitOk))
              (out (fzfmain.handleAutoCD w lib item d))
              (disk (fzfmain.handleAutoCD w lib item d))).
Proof.
  split.
  - intros a. unfold fzfmain.finish. rewrite run_bind.
    destruct (res ((if fzfmain.wantsAutoCD code options item
                    then fzfmain.handleAutoCD w lib item else ret tt) d));
      [|discriminate].
    cbn [res]. destruct (exit_run code err (disk
      ((if fzfmain.wantsAutoCD code options item
        then fzfmain.handleAutoCD w lib item else ret tt) d)))
      as (-> & _). discriminate.
  - intros Hwant Hret. unfold fzfmain.finish. rewrite Hwant, run_bind, Hret.
    apply wantsAutoCD_spec in Hwant. destruct Hwant as (-> & _ & _).
    unfold fzfmain.exit. destruct err; cbn; now rewrite app_nil_r.
Qed.

(** ** The path [handleAutoCD] hands to the library *)

Lemma Clean_not_empty (path : string) : filepath.Clean path <> "".
Proof.
  unfold filepath.Clean. destruct path as [|c rest]; [discriminate|].
  cbv zeta. destruct (filepath.IsPathSeparator c); [discriminate|].
  destruct (strings.Join _ "/" =? "") eqn:E; [discriminate|].
  now apply String.eqb_neq.
Qed.

Lemma elements_not_nil (path : string) : filepath.elements path <> [].
Proof.
  destruct path as [|c rest]; cbn; [discriminate|].
  destruct (filepath.IsPathSeparator c); [discriminate|].
  destruct (filepath.elements rest); discriminate.
Qed.

(** No element of a path holds a separator. *)
Lemma elements_without_separator (path : string) :
  Forall (fun e => filepath.hasSeparator e = false) (filepath.elements path).
Proof.
  induction path as [|c rest IH]; cbn; [repeat constructor|].
  destruct (filepath.IsPathSeparator c) eqn:Hc.
  - constructor; [reflexivity|exact IH].
  - destruct (filepath.elements rest) as [|e es].
    + repeat constructor. cbn. now rewrite Hc.
    + inversion IH as [|? ? He Hes]; subst.
      constructor; [|exact Hes]. cbn. now rewrite Hc, He.
Qed.

Lemma IsAbs_hasSeparator (path : string) :
  filepath.IsAbs path = true -> filepath.hasSeparator path = true.
Proof.
  destruct path as [|c rest]; cbn; [discriminate|]. now intros ->.
Qed.

Lemma cleanStep_kept (rooted : bool) (out : list string) (e : string) :
  filepath.hasSeparator e = false ->
  Forall Cases.kept out -> Forall Cases.kept (filepath.cleanStep rooted out e).
Proof.
  intros He Hout. unfold filepath.cleanStep.
  destruct ((e =? "") || (e =? ".")) eqn:Hskip; [exact Hout|].
  apply orb_false_iff in Hskip. destruct Hskip as [Hempty _].
  assert (Hkept : Cases.kept e).
  { split; [now apply String.eqb_neq|].
    destruct (filepath.IsAbs e) eqn:A; [|reflexivity].
    apply IsAbs_hasSeparator in A. congruence. }
  destruct (e =? "..").
  - destruct out as [|top below].
    + destruct rooted; [constructor|constructor; [exact Hkept|constructor]].
    + destruct (top =? ".."); [constructor; assumption|].
      now inversion Hout.
  - constructor; assumption.
Qed.

Lemma clean_kept (rooted : bool) (es out : list string) :
  Forall (fun e => filepath.hasSeparator e = false) es ->
  Forall Cases.kept out ->
  Forall Cases.kept (fold_left (filepath.cleanStep rooted) es out).
Proof.
  revert out. induction es as [|e es IH]; intros out Hes Hout; [exact Hout|].
  inversion Hes; subst. cbn. apply IH; [assumption|].
  now apply cleanStep_kept.
Qed.

Lemma IsAbs_append (a b : string) :
  a <> "" -> filepath.IsAbs (a ++ b) = filepath.IsAbs a.
Proof. destruct a; [contradiction|reflexivity]. Qed.

Lemma Join_kept (es : list string) :
  Forall Cases.kept es -> filepath.IsAbs (strings.Join es "/") = false.
Proof.
  intros H. destruct H as [|e es [Hne Habs] _]; [reflexivity|].
  destruct es; cbn [strings.Join]; [exact Habs|].
  now rewrite IsAbs_append.
Qed.

(** [Clean] keeps a path absolute or relative as it was. *)
Lemma Clean_keeps_IsAbs (path : string) :
  filepath.IsAbs (filepath.Clean path) = filepath.IsAbs path.
Proof.
  destruct (filepath.IsAbs path) eqn:A; [now apply Clean_IsAbs|].
  unfold filepath.Clean. destruct path as [|c rest]; [reflexivity|].
  cbn in A. cbv zeta. rewrite A.
  destruct (strings.Join _ "/" =? ""); [reflexivity|].
  apply Join_kept, Forall_rev, clean_kept; [|constructor].
  apply elements_without_separator.
Qed.

Lemma uptoLastSeparator_keeps_IsAbs (path : string) :
  filepath.IsAbs (filepath.uptoLastSeparator path) = filepath.IsAbs path.
Proof.
  destruct path as [|c rest]; [reflexivity|].
  cbn [filepath.uptoLastSeparator filepath.hasSeparator filepath.IsAbs].
  destruct (filepath.IsPathSeparator c) eqn:Hc; cbn [orb].
  - cbn. exact Hc.
  - destruct (filepath.hasSeparator rest); cbn; [exact Hc|reflexivity].
Qed.

Lemma Dir_keeps_IsAbs (path : string) :
  filepath.IsAbs (filepath.Dir path) = filepath.IsAbs path.
Proof.
  unfold filepath.Dir.
  now rewrite Clean_keeps_IsAbs, uptoLastSeparator_keeps_IsAbs.
Qed.

Lemma uptoLastSeparator_trailing (path : string) :
  filepath.uptoLastSeparator
    (path ++ String filepath.Separator EmptyString)
  = (path ++ String filepath.Separator EmptyString)%string.
Proof.
  induction path as [|c path IH]; [reflexivity|].
  change ((String c path ++ String filepath.Separator "")%string)
    with (String c (path ++ String filepath.Separator ""))%string.
  cbn [filepath.uptoLastSeparator].
  replace (filepath.hasSeparator
             (String c (path ++ String filepath.Separator ""))) with true.
  - now rewrite IH.
  - cbn [filepath.hasSeparator]. rewrite hasSeparator_app. cbn.
    now rewrite !orb_true_r.
Qed.

(** X6: [handleAutoCD] never hands an empty path to the handoff library:
    the directory it computes for a selected item that is not empty is not
    empty, and [main] calls it only with such an item. *)
Theorem handoff_target_never_empty (w : World) (code : Z)
  (options : fzf.Options) (item : string) :
  (item <> "" -> fzfmain.targetDir w item <> "")
  /\ (fzfmain.wantsAutoCD code options item = true ->
      fzfmain.targetDir w item <> "").
Proof.
  assert (H : item <> "" -> fzfmain.targetDir w item <> "").
  { intros Hitem. unfold fzfmain.targetDir.
    destruct (fzfmain.isDirectory w item); [exact Hitem|].
    apply Clean_not_empty. }
  split; [exact H|].
  intros Hwant. apply H. now apply wantsAutoCD_spec in Hwant.
Qed.

(** X7: a selected item without any separator that is not an existing
    directory (a file of the working directory selected by its bare name,
    or a line that names no file at all) resolves to ["."], the working
    directory. *)
Theorem bare_name_resolves_to_working_directory (w : World) (item : string) :
  filepath.hasSeparator item = false ->
  fzfmain.isDirectory w item = false ->
  fzfmain.targetDir w item = ".".
Proof.
  intros Hsep Hdir. unfold fzfmain.targetDir, filepath.Dir.
  now rewrite Hdir, uptoLastSeparator_name.
Qed.

(** X8: the directory [handleAutoCD] computes is absolute exactly when the
    selected item is: a relative selection is handed to the library as a
    relative path, an absolute one as an absolute path. *)
Theorem target_absolute_iff_item_absolute (w : World) (item : string) :
  filepath.IsAbs (fzfmain.targetDir w item) = filepath.IsAbs item.
Proof.
  unfold fzfmain.targetDir.
  destruct (fzfmain.isDirectory w item); [reflexivity|].
  apply Dir_keeps_IsAbs.
Qed.

Lemma elements_append (a b : string) :
  filepath.elements (a ++ String filepath.Separator b)
  = filepath.elements a ++ filepath.elements b.
Proof.
  induction a as [|c a IH]; [reflexivity|].
  change ((String c a ++ String filepath.Separator b)%string)
    with (String c (a ++ String filepath.Separator b))%string.
  cbn [filepath.elements]. rewrite IH.
  destruct (filepath.IsPathSeparator c); [reflexivity|].
  pose proof (elements_not_nil a) as Hne.
  destruct (filepath.elements a); [contradiction|reflexivity].
Qed.

(** A separator at the end of a path changes nothing for [Clean]. *)
Lemma Clean_trailing_separator (path : string) :
  path <> "" ->
  filepath.Clean (path ++ String filepath.Separator EmptyString)
  = filepath.Clean path.
Proof.
  intros Hne. destruct path as [|c rest]; [contradiction|].
  unfold filepath.Clean.
  change ((String c rest ++ String filepath.Separator "")%string)
    with (String c (rest ++ String filepath.Separator ""))%string.
  cbv beta iota zeta.
  change (String c (rest ++ String filepath.Separator ""))%string
    with ((String c rest ++ String filepath.Separator "")%string).
  rewrite elements_append, fold_left_app. reflexivity.
Qed.

(** X9: a selected item that ends in a separator and is not an existing
    directory does not resolve to its parent: [handleAutoCD] hands on the
    item itself, cleaned, which is the item without that separator,
    cleaned. *)
Theorem trailing_separator_keeps_the_item (w : World) (path : string) :
  path <> "" ->
  fzfmain.isDirectory w (path ++ String filepath.Separator EmptyString)
  = false ->
  fzfmain.targetDir w (path ++ String filepath.Separator EmptyString)
  = filepath.Clean path.
Proof.
  intros Hne Hdir. unfold fzfmain.targetDir, filepath.Dir.
  rewrite Hdir, uptoLastSeparator_trailing.
  now apply Clean_trailing_separator.
Qed.

(** ** [printScript] and the white space around an embedded script *)

Lemma TrimLeft_bounded (n : nat) :
  forall s, String.length s <= n ->
            Cases.startsWithSpace (strings.TrimLeft s) = false.
Proof.
  induction n as [|n IH]; intros s Hlen.
  - destruct s; [reflexivity|cbn in Hlen; lia].
  - destruct s as [|a s1]; [reflexivity|]. cbn [String.length] in Hlen.
    cbn [strings.TrimLeft].
    destruct (strings.isSpace1 a) eqn:H1; [apply IH; lia|].
    destruct s1 as [|b s2];
      [unfold Cases.startsWithSpace; now rewrite H1|].
    cbn [String.length] in Hlen.
    destruct (strings.isSpace2 a b) eqn:H2; [apply IH; lia|].
    destruct s2 as [|c s3];
      [unfold Cases.startsWithSpace; now rewrite H1, H2|].
    cbn [String.length] in Hlen.
    destruct (strings.isSpace3 a b c) eqn:H3; [apply IH; lia|].
    unfold Cases.startsWithSpace. now rewrite H1, H2, H3.
Qed.

Lemma trimReversed_bounded (n : nat) :
  forall r, String.length r <= n ->
            Cases.startsReversed (strings.trimReversed r) = false
            /\ exists u, r = (u ++ strings.trimReversed r)%string.
Proof.
  induction n as [|n IH]; intros r Hlen.
  - destruct r; [split; [reflexivity|now exists ""]|cbn in Hlen; lia].
  - destruct r as [|c r1]; [split; [reflexivity|now exists ""]|].
    cbn [String.length] in Hlen. cbn [strings.trimReversed].
    destruct (strings.isSpace1 c) eqn:H1.
    { destruct (IH r1) as [Ht [u Hu]]; [lia|]. split; [exact Ht|].
      exists (String c u). cbn. now rewrite <- Hu. }
    destruct r1 as [|b r2].
    { split; [unfold Cases.startsReversed; now rewrite H1|now exists ""]. }
    cbn [String.length] in Hlen.
    destruct (strings.isSpace2 b c) eqn:H2.
    { destruct (IH r2) as [Ht [u Hu]]; [lia|]. split; [exact Ht|].
      exists (String c (String b u)). cbn. now rewrite <- Hu. }
    destruct r2 as [|a r3].
    { split; [unfold Cases.startsReversed; now rewrite H1, H2|now exists ""]. }
    cbn [String.length] in Hlen.
    destruct (strings.isSpace3 a b c) eqn:H3.
    { destruct (IH r3) as [Ht [u Hu]]; [lia|]. split; [exact Ht|].
      exists (String c (String b (String a u))). cbn. now rewrite <- Hu. }
    split; [unfold Cases.startsReversed; now rewrite H1, H2, H3|now exists ""].
Qed.

Lemma reverseOnto_acc (s acc : string) :
  strings.reverseOnto s acc = (strings.reverseOnto s "" ++ acc)%string.
Proof.
  revert acc. induction s as [|c s IH]; intros acc; [reflexivity|].
  cbn [strings.reverseOnto]. rewrite (IH (String c acc)), (IH (String c "")).
  now rewrite append_assoc.
Qed.

Lemma reverseOnto_append (a b acc : string) :
  strings.reverseOnto (a ++ b) acc
  = strings.reverseOnto b (strings.reverseOnto a acc).
Proof.
  revert acc. induction a as [|c a IH]; intros acc; [reflexivity|].
  cbn. apply IH.
Qed.

Lemma reverseOnto_involutive (s : string) :
  strings.reverseOnto (strings.reverseOnto s "") "" = s.
Proof.
  induction s as [|c s IH]; [reflexivity|].
  cbn [strings.reverseOnto]. rewrite (reverseOnto_acc s (String c "")).
  rewrite reverseOnto_append, IH. reflexivity.
Qed.

(** A string that starts with white space still does when bytes are added
    at its end. *)
Lemma startsWithSpace_append (p u : string) :
  Cases.startsWithSpace p = true -> Cases.startsWithSpace (p ++ u) = true.
Proof.
  unfold Cases.startsWithSpace.
  destruct p as [|a [|b [|c p3]]]; cbn [String.append]; try discriminate.
  - rewrite orb_false_r. now intros ->.
  - destruct (strings.isSpace1 a); [reflexivity|]. cbn [orb].
    rewrite orb_false_r. intros ->. reflexivity.
  - tauto.
Qed.

(** [TrimRight] cuts bytes off the end only. *)
Lemma TrimRight_prefix (s : string) :
  exists u, s = (strings.TrimRight s ++ u)%string.
Proof.
  unfold strings.TrimRight.
  destruct (trimReversed_bounded _ (strings.reverseOnto s "") (le_n _))
    as [_ [u Hu]].
  exists (strings.reverseOnto u "").
  rewrite <- (reverseOnto_involutive s) at 1. rewrite Hu at 1.
  rewrite reverseOnto_append. apply reverseOnto_acc.
Qed.

Lemma TrimSpace_trimmed (s : string) :
  Cases.startsWithSpace (strings.TrimSpace s) = false
  /\ Cases.endsWithSpace (strings.TrimSpace s) = false.
Proof.
  unfold strings.TrimSpace. split.
  - destruct (Cases.startsWithSpace (strings.TrimRight (strings.TrimLeft s)))
      eqn:E; [|reflexivity].
    destruct (TrimRight_prefix (strings.TrimLeft s)) as [u Hu].
    apply (startsWithSpace_append _ u) in E. rewrite <- Hu in E.
    now rewrite (TrimLeft_bounded _ s (le_n _)) in E.
  - unfold Cases.endsWithSpace, strings.TrimRight.
    rewrite reverseOnto_involutive.
    apply (trimReversed_bounded _ _ (le_n _)).
Qed.

Lemma TrimLeft_fixed (s : string) :
  Cases.startsWithSpace s = false -> strings.TrimLeft s = s.
Proof.
  unfold Cases.startsWithSpace.
  destruct s as [|a [|b [|c s3]]]; cbn [strings.TrimLeft]; try reflexivity.
  - rewrite orb_false_r. now intros ->.
  - intros H. apply orb_false_iff in H. destruct H as [-> H].
    rewrite orb_false_r in H. now rewrite H.
  - intros H. apply orb_false_iff in H. destruct H as [-> H].
    apply orb_false_iff in H. destruct H as [-> ->]. reflexivity.
Qed.

Lemma trimReversed_fixed (r : string) :
  Cases.startsReversed r = false -> strings.trimReversed r = r.
Proof.
  unfold Cases.startsReversed.
  destruct r as [|c [|b [|a r3]]]; cbn [strings.trimReversed];
    try reflexivity.
  - rewrite orb_false_r. now intros ->.
  - intros H. apply orb_false_iff in H. destruct H as [-> H].
    rewrite orb_false_r in H. now rewrite H.
  - intros H. apply orb_false_iff in H. destruct H as [-> H].
    apply orb_false_iff in H. destruct H as [-> ->]. reflexivity.
Qed.

Lemma TrimSpace_fixed (s : string) :
  Cases.startsWithSpace s = false -> Cases.endsWithSpace s = false ->
  strings.TrimSpace s = s.
Proof.
  intros Hstart Hend. unfold strings.TrimSpace, strings.TrimRight.
  rewrite (TrimLeft_fixed s Hstart), (trimReversed_fixed _ Hend).
  apply reverseOnto_involutive.
Qed.

(** X10: [printScript] writes three lines to standard output and nothing
    else: the opening marker with the label, the script, and the closing
    marker.  The script line neither starts nor ends with a white space
    rune, however much white space surrounds the embedded script; a script
    without white space around it is printed as it is, so printing a
    script and printing the trimmed script give the same output. *)
Theorem printScript_prints_trimmed_script (label content : string)
  (d : list string) :
  fzfmain.printScript label content d
  = mkRun (Ret tt)
          [Stdout ("### " ++ label ++ " ###" ++ LF);
           Stdout (strings.TrimSpace content ++ LF);
           Stdout ("### end: " ++ label ++ " ###" ++ LF)]
          d
  /\ Cases.startsWithSpace (strings.TrimSpace content) = false
  /\ Cases.endsWithSpace (strings.TrimSpace content) = false
  /\ (Cases.startsWithSpace content = false ->
      Cases.endsWithSpace content = false ->
      strings.TrimSpace content = content)
  /\ fzfmain.printScript label (strings.TrimSpace content) d
     = fzfmain.printScript label content d.
Proof.
  destruct (TrimSpace_trimmed content) as [Hs He].
  split; [|split; [exact Hs|split; [exact He|split]]].
  - unfold fzfmain.printScript, Println. cbn.
    now rewrite !append_assoc.
  - apply TrimSpace_fixed.
  - unfold fzfmain.printScript. now rewrite (TrimSpace_fixed _ Hs He).
Qed.

(** ** The reproduction program *)

(** X11: without exactly one argument the reproduction program never calls
    the library: it writes nothing to standard output, touches no file and
    ends with a code that is not 0, the usage text on standard error and
    code 1 when [os.Args] has a program name. *)
Theorem reproduction_usage (w : World) (E : Type)
  (lib lib' : string -> M (option E)) (errorText errorText' : E -> string)
  (Args : list string) (d : list string) :
  length Args <> 2 ->
  repro.main w E lib errorText Args d = repro.main w E lib' errorText' Args d
  /\ stdoutOf (out (repro.main w E lib errorText Args d)) = []
  /\ disk (repro.main w E lib errorText Args d) = d
  /\ exitStatus (repro.main w E lib errorText Args d) <> Some 0%Z
  /\ forall prog rest,
       Args = prog :: rest ->
       repro.main w E lib errorText Args d
       = mkRun (Halt (Exited 1))
               [Stderr ("Usage: " ++ prog ++ " <directory>" ++ LF);
                Stderr ("Example: " ++ prog ++ " /tmp" ++ LF)]
               d.
Proof.
  intros Hlen. unfold repro.main.
  replace (negb (length Args =? 2)%nat) with true
    by (symmetry; apply negb_true_iff; now apply Nat.eqb_neq).
  destruct Args as [|prog rest]; cbn; repeat split; try discriminate.
  intros prog' rest' [= <- <-]. reflexivity.
Qed.

(** X12: with one argument the reproduction program prints three lines on
    standard output, calls the library with the argument, and reports
    what the call did.  A call that does not return ends the program the
    way the library ended it; a returned error is printed on standard
    output and the exit code is 1; a returned [nil] makes it print the
    line that announces the bug and the directory, and return, so the exit
    status is 0.  Nothing is written to standard error by the program
    itself. *)
Theorem reproduction_reports_library_outcome (w : World) (E : Type)
  (lib : string -> M (option E)) (errorText : E -> string)
  (prog target : string) (d : list string) :
  repro.main w E lib errorText [prog; target] d
  = match res (lib target d) with
    | Halt t =>
        mkRun (Halt t)
              ([Stdout ("Current directory: " ++ repro.getCurrentDir w ++ LF);
                Stdout ("Target directory: " ++ target ++ LF);
                Stdout ("About to call ExitWithDirectory()..." ++ LF)]
               ++ out (lib target d))
              (disk (lib target d))
    | Ret (Some e) =>
        mkRun (Halt (Exited 1))
              ([Stdout ("Current directory: " ++ repro.getCurrentDir w ++ LF);
                Stdout ("Target directory: " ++ target ++ LF);
                Stdout ("About to call ExitWithDirectory()..." ++ LF)]
               ++ out (lib target d)
               ++ [Stdout ("Error: " ++ errorText e ++ LF)])
              (disk (lib target d))
    | Ret None =>
        mkRun (Ret tt)
              ([Stdout ("Current directory: " ++ repro.getCurrentDir w ++ LF);
                Stdout ("Target directory: " ++ target ++ LF);
                Stdout ("About to call ExitWithDirectory()..." ++ LF)]
               ++ out (lib target d)
               ++ [Stdout repro.bugLine;
                   Stdout ("Still in directory: " ++ repro.getCurrentDir w
                           ++ LF)])
              (disk (lib target d))
    end.
Proof.
  unfold repro.main. cbn [length Nat.eqb negb nth].
  rewrite !run_bind. cbn [Print emit res out disk].
  destruct (res (lib target d)) as [[e|]|t]; cbn;
    rewrite ?app_nil_r; reflexivity.
Qed.

(** ** [main] without [--autocd] *)

Section WithoutAutoCD.

Variable w : World.
Variable ParseOptions : bool -> list string -> fzf.Options * option error.
Variable Run : fzf.Options -> M (Z * string * option error).
Variable Usage : string.
Variable WriteTemporaryFile : list string -> string -> M string.
Variable runMan : string -> M (option error).
Variable Protect : M unit.
Variables bashKeyBindings bashCompletion zshKeyBindings zshCompletion
  fishKeyBindings manPage : string.

(** X13: without the autocd option [main] is the program without the
    handoff: when the command line parses and asks for no informational
    action, [main] runs the selector and ends with [exit] on the code and
    error it returned, whatever was selected and whatever the handoff
    library is; so when the selector returns, the process ends with the
    selector's code. *)
Theorem without_autocd_main_is_unchanged
  (lib : string -> M unit -> M unit)
  (prog : string) (arguments : list string) (options : fzf.Options)
  (d : list string) :
  ParseOptions true arguments = (options, None) ->
  fzf.Bash options || fzf.Zsh options || fzf.Fish options
  || fzf.Help options || fzf.Version options || fzf.Man options = false ->
  fzf.AutoCD options = false ->
  fzfmain.main w ParseOptions Run Usage WriteTemporaryFile runMan Protect
               bashKeyBindings bashCompletion zshKeyBindings zshCompletion
               fishKeyBindings manPage lib (prog :: arguments) d
  = bind Protect (fun _ =>
      bind (Run options) (fun r => fzfmain.exit (fst (fst r)) (snd r))) d
  /\ forall code item err evs d',
       res (Protect d) = Ret tt ->
       Run options (disk (Protect d)) = mkRun (Ret (code, item, err)) evs d' ->
       res (fzfmain.main w ParseOptions Run Usage WriteTemporaryFile runMan
              Protect bashKeyBindings bashCompletion zshKeyBindings
              zshCompletion fishKeyBindings manPage lib (prog :: arguments) d)
       = Halt (Exited code).
Proof.
  intros Hparse Hflag Hauto.
  repeat (apply orb_false_iff in Hflag; destruct Hflag as [Hflag ?]).
  assert (E : fzfmain.main w ParseOptions Run Usage WriteTemporaryFile runMan
                Protect bashKeyBindings bashCompletion zshKeyBindings
                zshCompletion fishKeyBindings manPage lib (prog :: arguments) d
              = bind Protect (fun _ =>
                  bind (Run options)
                       (fun r => fzfmain.exit (fst (fst r)) (snd r))) d).
  { rewrite (main_runs_selector w ParseOptions Run Usage WriteTemporaryFile
               runMan Protect bashKeyBindings bashCompletion zshKeyBindings
               zshCompletion fishKeyBindings manPage lib prog arguments
               options) by assumption.
    rewrite !run_bind. destruct (res (Protect d)); [|reflexivity].
    rewrite ?run_bind.
    destruct (res (Run options (disk (Protect d)))) as [[[code item] err]|t];
      [|reflexivity].
    cbn [fst snd].
    rewrite finish_without_handoff; [reflexivity|].
    unfold fzfmain.wantsAutoCD. rewrite Hauto. now rewrite andb_false_r. }
  split; [exact E|].
  intros code item err evs d' HP Hrun. rewrite E, run_bind, HP, run_bind, Hrun.
  cbn [res out disk fst snd].
  now destruct (exit_run code err d') as (-> & _).
Qed.

End WithoutAutoCD.

(** ** The further properties at concrete inputs *)

Lemma exit_reports_only_errors_witness :
  out (fzfmain.exit fzf.ExitError (Some (errors_New "unknown option")) [])
  = [Stderr ("unknown option" ++ LF)]
  /\ (out (fzfmain.exit fzf.ExitInterrupt (Some (errors_New "interrupted")) [])
      <> [] -> False).
Proof.
  split.
  - exact (proj2 (proj2 (proj2 (proj2
      (exit_reports_only_errors fzf.ExitError
         (Some (errors_New "unknown option")) (fun _ => ret tt) []))))
      (errors_New "unknown option") eq_refl eq_refl).
  - intros H.
    destruct (proj1 (proj1 (proj2 (proj2 (proj2
      (exit_reports_only_errors fzf.ExitInterrupt
         (Some (errors_New "interrupted")) (fun _ => ret tt) []))))) H)
      as [Hcode _].
    discriminate Hcode.
Defined.

Lemma parse_error_exits_with_code_2_witness :
  Cases.parseFlags true ["--bogus"]
  = (fst (Cases.parseFlags true ["--bogus"]),
     Some (errors_New "unknown option: --bogus"))
  /\ fzfmain.main Scenario.posix Cases.parseFlags
       (Scenario.selects fzf.ExitOk "/tmp") "usage"
       (Cases.writesTemp "/tmp/fzf-man") Cases.manFails (ret tt)
       "b1" "b2" "z1" "z2" "f1" "page" Cases.returning ["fzf"; "--bogus"] []
     = mkRun (Halt (Exited 2))
             [Stderr ("unknown option: --bogus" ++ LF)] [].
Proof.
  split; [reflexivity|].
  exact (parse_error_exits_with_code_2 Scenario.posix Cases.parseFlags "usage"
           (Cases.writesTemp "/tmp/fzf-man") Cases.manFails (ret tt)
           "b1" "b2" "z1" "z2" "f1" "page"
           (Scenario.selects fzf.ExitOk "/tmp") Cases.returning
           "fzf" ["--bogus"] (fst (Cases.parseFlags true ["--bogus"]))
           (errors_New "unknown option: --bogus") [] eq_refl eq_refl).
Defined.

Lemma informational_actions_only_print_witness :
  fzf.Version (fst (Cases.parseFlags true ["--version"; "--autocd"])) = true
  /\ exitStatus
       (fzfmain.main Scenario.posix Cases.parseFlags
          (Scenario.selects fzf.ExitOk "/tmp") "usage"
          (Cases.writesTemp "/tmp/fzf-man") Cases.manFails (ret tt)
          "b1" "b2" "z1" "z2" "f1" "page"
          (autocd.ExitWithDirectoryOrFallback Scenario.posix)
          ["fzf"; "--version"; "--autocd"] [])
     = Some 0%Z.
Proof.
  split; [reflexivity|].
  exact (proj1 (proj2
    (informational_actions_only_print Scenario.posix Cases.parseFlags "usage"
       (Cases.writesTemp "/tmp/fzf-man") Cases.manFails (ret tt)
       "b1" "b2" "z1" "z2" "f1" "page"
       (Scenario.selects fzf.ExitOk "/tmp")
       (Scenario.selects fzf.ExitOk "/tmp")
       (autocd.ExitWithDirectoryOrFallback Scenario.posix) Cases.returning
       "fzf" ["--version"; "--autocd"]
       (fst (Cases.parseFlags true ["--version"; "--autocd"])) []
       eq_refl eq_refl eq_refl))).
Defined.

Lemma man_page_temp_file_removed_witness :
  "/tmp/fzf-man" <> ""
  /\ fzfmain.main Scenario.posix Cases.parseFlags
       (Scenario.selects fzf.ExitOk "/tmp") "usage"
       (Cases.writesTemp "/tmp/fzf-man") Cases.manFails (ret tt)
       "b1" "b2" "z1" "z2" "f1" "page" Cases.returning ["fzf"; "--man"] []
     = mkRun (Ret tt) [Stdout "page"; Remove "/tmp/fzf-man"] []
  /\ fzfmain.main Scenario.posix Cases.parseFlags
       (Scenario.selects fzf.ExitOk "/tmp") "usage"
       Cases.noTemp Cases.manWorks (ret tt)
       "b1" "b2" "z1" "z2" "f1" "page" Cases.returning ["fzf"; "--man"] []
     = mkRun (Ret tt) [Stdout "page"] [].
Proof.
  assert (Hfile : "/tmp/fzf-man" <> "") by discriminate.
  split; [exact Hfile|]. split.
  - exact (proj1 (proj2
      (man_page_temp_file_removed Scenario.posix Cases.parseFlags "usage"
         (Cases.writesTemp "/tmp/fzf-man") Cases.manFails (ret tt)
         "b1" "b2" "z1" "z2" "f1" "page"
         (Scenario.selects fzf.ExitOk "/tmp") Cases.returning
         "fzf" ["--man"] (fst (Cases.parseFlags true ["--man"]))
         [] ["/tmp/fzf-man"] ["/tmp/fzf-man"] [] [] "/tmp/fzf-man"
         (Some (errors_New "exit status 1"))
         eq_refl eq_refl eq_refl eq_refl eq_refl eq_refl) Hfile)).
  - exact (proj1
      (man_page_temp_file_removed Scenario.posix Cases.parseFlags "usage"
         Cases.noTemp Cases.manWorks (ret tt)
         "b1" "b2" "z1" "z2" "f1" "page"
         (Scenario.selects fzf.ExitOk "/tmp") Cases.returning
         "fzf" ["--man"] (fst (Cases.parseFlags true ["--man"]))
         [] [] [] [] [] "" None
         eq_refl eq_refl eq_refl eq_refl eq_refl eq_refl) eq_refl).
Defined.

Lemma returning_handoff_falls_back_to_exit_witness :
  fzfmain.wantsAutoCD fzf.ExitOk
    (fst (Cases.parseFlags true ["--autocd"])) "/tmp" = true
  /\ fzfmain.finish Scenario.posix Cases.returning
       (fst (Cases.parseFlags true ["--autocd"])) fzf.ExitOk "/tmp"
       (Some (errors_New "ignored")) []
     = mkRun (Halt (Exited 0)) [SetStdin "/dev/tty"] [].
Proof.
  split; [reflexivity|].
  exact (proj2
    (returning_handoff_falls_back_to_exit Scenario.posix Cases.returning
       (fst (Cases.parseFlags true ["--autocd"])) fzf.ExitOk "/tmp"
       (Some (errors_New "ignored")) []) eq_refl eq_refl).
Defined.

Lemma handoff_target_never_empty_witness :
  "ghost" <> "" /\ fzfmain.targetDir Scenario.posix "ghost" <> "".
Proof.
  assert (H : "ghost" <> "") by discriminate.
  split; [exact H|].
  exact (proj1
    (handoff_target_never_empty Scenario.posix fzf.ExitOk
       (fst (Cases.parseFlags true ["--autocd"])) "ghost") H).
Defined.

Lemma bare_name_resolves_to_working_directory_witness :
  filepath.hasSeparator "readme.md" = false
  /\ fzfmain.isDirectory Scenario.posix "readme.md" = false
  /\ fzfmain.targetDir Scenario.posix "readme.md" = ".".
Proof.
  split; [reflexivity|]. split; [reflexivity|].
  exact (bare_name_resolves_to_working_directory Scenario.posix "readme.md"
           eq_refl eq_refl).
Defined.

Lemma trailing_separator_keeps_the_item_witness :
  "a/b" <> ""
  /\ fzfmain.isDirectory Scenario.posix "a/b/" = false
  /\ fzfmain.targetDir Scenario.posix "a/b/" = "a/b".
Proof.
  assert (H : "a/b" <> "") by discriminate.
  split; [exact H|]. split; [reflexivity|].
  exact (trailing_separator_keeps_the_item Scenario.posix "a/b" H eq_refl).
Defined.

Lemma printScript_prints_trimmed_script_witness :
  Cases.startsWithSpace "echo hi" = false
  /\ Cases.endsWithSpace "echo hi" = false
  /\ strings.TrimSpace "echo hi" = "echo hi"
  /\ fzfmain.printScript "completion.bash" (" " ++ LF ++ "echo hi " ++ LF) []
     = mkRun (Ret tt)
             [Stdout ("### completion.bash ###" ++ LF);
              Stdout ("echo hi" ++ LF);
              Stdout ("### end: completion.bash ###" ++ LF)]
             [].
Proof.
  split; [reflexivity|]. split; [reflexivity|]. split.
  - exact (proj1 (proj2 (proj2 (proj2
      (printScript_prints_trimmed_script "completion.bash" "echo hi" []))))
      eq_refl eq_refl).
  - exact (proj1
      (printScript_prints_trimmed_script "completion.bash"
         (" " ++ LF ++ "echo hi " ++ LF) [])).
Defined.

Lemma reproduction_usage_witness :
  length ["repro"] <> 2
  /\ repro.main Scenario.posix string Cases.replaces (fun e => e) ["repro"] []
     = mkRun (Halt (Exited 1))
             [Stderr ("Usage: repro <directory>" ++ LF);
              Stderr ("Example: repro /tmp" ++ LF)]
             [].
Proof.
  assert (H : length ["repro"] <> 2) by discriminate.
  split; [exact H|].
  exact (proj2 (proj2 (proj2 (proj2
    (reproduction_usage Scenario.posix string Cases.replaces Cases.returnsNil
       (fun e => e) (fun e => e) ["repro"] [] H)))) "repro" [] eq_refl).
Defined.

Lemma without_autocd_main_is_unchanged_witness :
  fzf.AutoCD (fst (Cases.parseFlags true [])) = false
  /\ res (fzfmain.main Scenario.posix Cases.parseFlags
            (Scenario.selects fzf.ExitNoMatch "") "usage"
            (Cases.writesTemp "/tmp/fzf-man") Cases.manFails (ret tt)
            "b1" "b2" "z1" "z2" "f1" "page"
            (autocd.ExitWithDirectoryOrFallback Scenario.posix) ["fzf"] [])
     = Halt (Exited 1).
Proof.
  split; [reflexivity|].
  exact (proj2
    (without_autocd_main_is_unchanged Scenario.posix Cases.parseFlags
       (Scenario.selects fzf.ExitNoMatch "") "usage"
       (Cases.writesTemp "/tmp/fzf-man") Cases.manFails (ret tt)
       "b1" "b2" "z1" "z2" "f1" "page"
       (autocd.ExitWithDirectoryOrFallback Scenario.posix)
       "fzf" [] (fst (Cases.parseFlags true [])) []
       eq_refl eq_refl eq_refl)
    fzf.ExitNoMatch "" None [] [] eq_refl eq_refl).
Defined.
